(** * fvpatcher: the manifest reconciliation engine of [main.go]

    A shallow embedding of the patcher's single source file.  The Go
    program talks to a file system, an HTTP server, a clock and a console;
    the embedding threads one [World] value through every call, so that
    each function of [main.go] becomes a computation in a small state monad
    with one extra exit for [log.Fatal].

    Layout: library models ([crypto/md5], [path/filepath], [os], [net/http],
    [time]), then the program in source order, then the scenarios used as
    concrete inputs, then the properties. *)

From Stdlib Require Import ZArith Strings.Byte Ascii String.
From stdpp Require Import base option list gmap strings.

Local Open Scope Z_scope.

(* ================================================================== *)
(** ** crypto/md5 (RFC 1321) *)
(* ================================================================== *)

Module Md5.

(** 32-bit words are integers reduced modulo [2^32]. *)
Definition wrap32 (x : Z) : Z := x mod 4294967296.

Definition rotl32 (x : Z) (s : Z) : Z :=
  wrap32 (Z.lor (Z.shiftl x s) (Z.shiftr x (32 - s))).

Definition not32 (x : Z) : Z := Z.lxor x 4294967295.

(** [floor (2^32 * abs (sin (i + 1)))] for [i = 0 .. 63]. *)
Definition sines : list Z :=
  [ 3614090360; 3905402710; 606105819; 3250441966;
    4118548399; 1200080426; 2821735955; 4249261313;
    1770035416; 2336552879; 4294925233; 2304563134;
    1804603682; 4254626195; 2792965006; 1236535329;
    4129170786; 3225465664; 643717713; 3921069994;
    3593408605; 38016083; 3634488961; 3889429448;
    568446438; 3275163606; 4107603335; 1163531501;
    2850285829; 4243563512; 1735328473; 2368359562;
    4294588738; 2272392833; 1839030562; 4259657740;
    2763975236; 1272893353; 4139469664; 3200236656;
    681279174; 3936430074; 3572445317; 76029189;
    3654602809; 3873151461; 530742520; 3299628645;
    4096336452; 1126891415; 2878612391; 4237533241;
    1700485571; 2399980690; 4293915773; 2240044497;
    1873313359; 4264355552; 2734768916; 1309151649;
    4149444226; 3174756917; 718787259; 3951481745 ].

Definition shifts : list Z :=
  [ 7; 12; 17; 22; 7; 12; 17; 22; 7; 12; 17; 22; 7; 12; 17; 22;
    5; 9; 14; 20; 5; 9; 14; 20; 5; 9; 14; 20; 5; 9; 14; 20;
    4; 11; 16; 23; 4; 11; 16; 23; 4; 11; 16; 23; 4; 11; 16; 23;
    6; 10; 15; 21; 6; 10; 15; 21; 6; 10; 15; 21; 6; 10; 15; 21 ].

Record regs := Regs { rA : Z; rB : Z; rC : Z; rD : Z }.

Definition init : regs :=
  Regs 1732584193 4023233417 2562383102 271733878.

(** The mixing function and the message-word index of operation [i]. *)
Definition mix (i : nat) (b c d : Z) : Z :=
  if (i <? 16)%nat then Z.lor (Z.land b c) (Z.land (not32 b) d)
  else if (i <? 32)%nat then Z.lor (Z.land d b) (Z.land (not32 d) c)
  else if (i <? 48)%nat then Z.lxor b (Z.lxor c d)
  else Z.lxor c (Z.lor b (not32 d)).

Definition word_index (i : nat) : nat :=
  if (i <? 16)%nat then i
  else if (i <? 32)%nat then (5 * i + 1) mod 16
  else if (i <? 48)%nat then (3 * i + 5) mod 16
  else (7 * i) mod 16.

Definition operation (m : list Z) (r : regs) (i : nat) : regs :=
  let f := wrap32 (mix i (rB r) (rC r) (rD r) + rA r
                   + nth i sines 0 + nth (word_index i) m 0) in
  Regs (rD r) (wrap32 (rB r + rotl32 f (nth i shifts 0))) (rB r) (rC r).

Definition block (r : regs) (m : list Z) : regs :=
  let r' := fold_left (operation m) (seq 0 64) r in
  Regs (wrap32 (rA r + rA r')) (wrap32 (rB r + rB r'))
       (wrap32 (rC r + rC r')) (wrap32 (rD r + rD r')).

(** Little-endian packing of bytes into words, and back. *)
Definition le_word (b0 b1 b2 b3 : Z) : Z :=
  b0 + 256 * (b1 + 256 * (b2 + 256 * b3)).

Fixpoint le_words (bs : list Z) : list Z :=
  match bs with
  | b0 :: b1 :: b2 :: b3 :: rest => le_word b0 b1 b2 b3 :: le_words rest
  | _ => []
  end.

Fixpoint le_bytes (n : nat) (x : Z) : list Z :=
  match n with
  | O => []
  | S n' => x mod 256 :: le_bytes n' (x / 256)
  end.

(** Padding: a single [0x80], zeros up to 56 modulo 64, and the bit
    length on eight bytes. *)
Definition pad (bs : list Z) : list Z :=
  let len := Z.of_nat (length bs) in
  let zeros := Z.to_nat ((55 - len) mod 64) in
  bs ++ 128 :: repeat 0 zeros ++ le_bytes 8 (8 * len).

Fixpoint blocks (fuel : nat) (ws : list Z) (r : regs) : regs :=
  match fuel with
  | O => r
  | S fuel' =>
    match ws with
    | [] => r
    | _ => blocks fuel' (skipn 16 ws) (block r (firstn 16 ws))
    end
  end.

(** [md5.Sum]: the sixteen digest bytes. *)
Definition Sum (data : list byte) : list Z :=
  let ws := le_words (pad (map (fun b => Z.of_N (Byte.to_N b)) data)) in
  let r := blocks (length ws) ws init in
  le_bytes 4 (rA r) ++ le_bytes 4 (rB r) ++ le_bytes 4 (rC r) ++ le_bytes 4 (rD r).

(** [fmt.Sprintf("%x", ...)] of a byte array: two lower-case hexadecimal
    digits per byte. *)
Definition hex_digit (d : Z) : ascii :=
  nth (Z.to_nat d) (list_ascii_of_string "0123456789abcdef") "0"%char.

Fixpoint hex (bs : list Z) : string :=
  match bs with
  | [] => EmptyString
  | b :: rest => String (hex_digit (b / 16)) (String (hex_digit (b mod 16)) (hex rest))
  end.

End Md5.

(** Byte strings written as string literals. *)
Definition bytes (s : string) : list byte := list_byte_of_string s.

(* ================================================================== *)
(** ** path/filepath (Unix) *)
(* ================================================================== *)

Module filepath.

Local Open Scope string_scope.

(** [strings.Split(p, "/")]. *)
Fixpoint split (p : string) : list string :=
  match p with
  | EmptyString => [EmptyString]
  | String c rest =>
    if Ascii.eqb c "/" then EmptyString :: split rest
    else match split rest with
         | [] => [String c EmptyString]
         | x :: xs => String c x :: xs
         end
  end.

Definition IsAbs (p : string) : bool :=
  match p with
  | String c _ => Ascii.eqb c "/"
  | EmptyString => false
  end.

(** One step of the lexical clean-up of [Clean]: the elements kept so
    far are held most recent first. *)
Definition push (rooted : bool) (kept : list string) (c : string) : list string :=
  if decide (c = EmptyString ∨ c = ".") then kept
  else if decide (c = "..") then
    match kept with
    | top :: below => if decide (top = "..") then c :: kept else below
    | [] => if rooted then [] else [c]
    end
  else c :: kept.

Definition elements (rooted : bool) (p : string) : list string :=
  rev (fold_left (push rooted) (split p) []).

Fixpoint unsplit (cs : list string) : string :=
  match cs with
  | [] => EmptyString
  | [c] => c
  | c :: rest => c +:+ "/" +:+ unsplit rest
  end.

Definition Clean (p : string) : string :=
  if decide (p = EmptyString) then "."
  else
    let out := unsplit (elements (IsAbs p) p) in
    if IsAbs p then "/" +:+ out
    else if decide (out = EmptyString) then "." else out.

(** [Join] of two elements: empty leading elements are dropped, the
    rest is joined with the separator and cleaned. *)
Definition Join (a b : string) : string :=
  if decide (a ≠ EmptyString) then Clean (a +:+ "/" +:+ b)
  else if decide (b ≠ EmptyString) then Clean b
  else EmptyString.

End filepath.

(* ================================================================== *)
(** ** The world outside the program *)
(* ================================================================== *)

(** Errors: the [errno] values the file system model can produce, and the
    failures of the other libraries. *)
Inductive error : Type :=
| ENOENT | ENOTDIR | EISDIR | EACCES | ENOTEMPTY | EBUSY | ENOSPC | EIO
| ErrTransport | ErrUnexpectedEOF | ErrYaml.

Global Instance error_eq_dec : EqDecision error.
Proof. solve_decision. Defined.

(** A Go [(T, error)] pair whose value is only read when the error is
    [nil]. *)
Inductive result (A : Type) : Type :=
| Ok (a : A)
| Err (e : error).
Arguments Ok {A} a.
Arguments Err {A} e.

(** [os.IsNotExist]. *)
Definition IsNotExist (e : error) : bool :=
  match e with ENOENT => true | _ => false end.

(** *** File system *)

(** Owner permission bits. *)
Record perm := Perm { p_read : bool; p_write : bool; p_exec : bool }.

Inductive node : Type :=
| File (mode : perm) (mtime : Z) (data : list byte)
| Dir (mode : perm) (mtime : Z).

(** A file system maps the element list of an absolute path (the root
    directory is [[]]) to the node found there. *)
Abbreviation fsys := (gmap (list string) node).

Definition parent (p : list string) : list string := removelast p.

(** Path resolution: every proper ancestor of the path must be a
    directory that may be searched. *)
Fixpoint traverse (fs : fsys) (seen todo : list string) : option error :=
  match todo with
  | [] => None
  | c :: rest =>
    match fs !! seen with
    | None => Some ENOENT
    | Some (File _ _ _) => Some ENOTDIR
    | Some (Dir m _) =>
      if p_exec m then traverse fs (seen ++ [c]) rest else Some EACCES
    end
  end.

Definition lookup_node (fs : fsys) (p : list string) : result node :=
  match traverse fs [] p with
  | Some e => Err e
  | None =>
    match fs !! p with
    | Some n => Ok n
    | None => Err ENOENT
    end
  end.

Definition has_child (fs : fsys) (p : list string) : bool :=
  existsb (fun q => bool_decide (q ≠ [] ∧ parent q = p)) (fst <$> map_to_list fs).

(** May an entry be added to or removed from the directory holding [p]? *)
Definition parent_writable (fs : fsys) (p : list string) : result unit :=
  match p with
  | [] => Err EBUSY
  | _ =>
    match fs !! parent p with
    | Some (Dir m _) => if p_write m then Ok tt else Err EACCES
    | Some (File _ _ _) => Err ENOTDIR
    | None => Err ENOENT
    end
  end.

(** *** Network *)

(** What [client.Get] meets at a URL: no response at all (connection,
    TLS or timeout failure), or a response with a status code and a body
    that arrives whole or breaks off. *)
Inductive http_outcome : Type :=
| NoResponse
| Response (StatusCode : nat) (Body : list byte) (complete : bool).

(** *** Storage *)

(** What the device does with the bytes of a write: it takes them all,
    or it takes the first [n] of them and reports an error (no space
    left, an I/O error). *)
Inductive write_outcome : Type :=
| Stored
| Short (n : nat) (e : error).

(** *** Console *)

(** One constructor per print statement of [main.go]. *)
Inductive event : Type :=
| PrintManifestVersion (v : string)
| PrintProcessingDeletes (n : nat)
| PrintDeleting (name : string)
| PrintDeleteFailed (e : error)
| PrintFilesDeleted (n : nat)
| PrintProcessingDownloads (n : nat)
| PrintError (e : error)
| PrintOK (name : string)
| PrintGet (url : string)
| PrintMD5Mismatch (got expected : string)
| LogError (e : error)
| PrintFilesDownloaded (n : nat)
| PrintFilelistURL (url : string)
| PrintGetFilelist (url : string)
| LogFatal (e : error).

(** *** The world *)

Record World := mkWorld {
  fs : fsys;
  cwd : string;                 (* working directory, absolute *)
  home : string;                (* $HOME, empty when unset *)
  now : Z;                      (* wall clock, nanoseconds *)
  net : string -> http_outcome;
  storage : list string -> list byte -> write_outcome;
                                (* what a write to an open file meets *)
  requests : list string;       (* URLs requested so far *)
  console : list event          (* lines printed so far *)
}.

Definition set_fs (f : fsys) (w : World) : World :=
  mkWorld f (cwd w) (home w) (now w) (net w) (storage w) (requests w) (console w).

Definition add_request (u : string) (w : World) : World :=
  mkWorld (fs w) (cwd w) (home w) (now w) (net w) (storage w) (requests w ++ [u]) (console w).

Definition add_event (e : event) (w : World) : World :=
  mkWorld (fs w) (cwd w) (home w) (now w) (net w) (storage w) (requests w) (console w ++ [e]).

(** The element list a path name denotes; the empty name denotes
    nothing. *)
Definition locate (w : World) (name : string) : result (list string) :=
  if decide (name = EmptyString) then Err ENOENT
  else if filepath.IsAbs name then Ok (filepath.elements true name)
  else Ok (filepath.elements true (cwd w +:+ "/" +:+ name)).

(* ================================================================== *)
(** ** Computations *)
(* ================================================================== *)

(** A computation either finishes with a value or stops the process
    ([log.Fatal]); both leave a world behind. *)
Inductive outcome (A : Type) : Type :=
| Done (a : A) (w : World)
| Fatal (e : error) (w : World).
Arguments Done {A} a w.
Arguments Fatal {A} e w.

Definition M (A : Type) : Type := World -> outcome A.

Definition ret {A} (a : A) : M A := fun w => Done a w.

Definition bind {A B} (m : M A) (k : A -> M B) : M B :=
  fun w =>
    match m w with
    | Done a w' => k a w'
    | Fatal e w' => Fatal e w'
    end.

Notation "'do' x <- m ; k" := (bind m (fun x => k))
  (at level 10, x name, m at level 100, k at level 200).
Notation "'do' ' pat <- m ; k" := (bind m (fun x => match x with pat => k end))
  (at level 10, pat pattern, m at level 100, k at level 200).
Notation "m >> k" := (bind m (fun _ => k))
  (at level 190, right associativity).

Definition world_of {A} (o : outcome A) : World :=
  match o with
  | Done _ w => w
  | Fatal _ w => w
  end.

Definition println (e : event) : M unit := fun w => Done tt (add_event e w).

(** [log.Fatal]: print, then exit with status 1. *)
Definition log_Fatal {A} (e : error) : M A :=
  fun w => Fatal e (add_event (LogFatal e) w).

(* ================================================================== *)
(** ** os, io, net/http, time *)
(* ================================================================== *)

Record FileInfo := mkFileInfo { ModTime : Z; IsDir : bool }.

Definition info_of (n : node) : FileInfo :=
  match n with
  | File _ t _ => mkFileInfo t false
  | Dir _ t => mkFileInfo t true
  end.

Definition os_Stat (name : string) : M (result FileInfo) :=
  fun w =>
    match locate w name with
    | Err e => Done (Err e) w
    | Ok p =>
      match lookup_node (fs w) p with
      | Err e => Done (Err e) w
      | Ok n => Done (Ok (info_of n)) w
      end
    end.

(** [os.Remove]: files and empty directories. *)
Definition os_Remove (name : string) : M (option error) :=
  fun w =>
    match locate w name with
    | Err e => Done (Some e) w
    | Ok p =>
      match lookup_node (fs w) p with
      | Err e => Done (Some e) w
      | Ok n =>
        match parent_writable (fs w) p with
        | Err e => Done (Some e) w
        | Ok _ =>
          match n with
          | Dir _ _ =>
            if has_child (fs w) p then Done (Some ENOTEMPTY) w
            else Done None (set_fs (delete p (fs w)) w)
          | File _ _ _ => Done None (set_fs (delete p (fs w)) w)
          end
        end
      end
    end.

(** An open file is named by the element list it was opened at. *)
Abbreviation handle := (list string).

(** [os.Open]. *)
Definition os_Open (name : string) : M (result handle) :=
  fun w =>
    match locate w name with
    | Err e => Done (Err e) w
    | Ok p =>
      match lookup_node (fs w) p with
      | Err e => Done (Err e) w
      | Ok (File m _ _) | Ok (Dir m _) =>
        if p_read m then Done (Ok p) w else Done (Err EACCES) w
      end
    end.

(** Reading an open file to its end ([io.Copy] into a hash, [io.ReadAll]):
    a directory cannot be read. *)
Definition read_all (f : handle) : M (result (list byte)) :=
  fun w =>
    match fs w !! f with
    | Some (File _ _ d) => Done (Ok d) w
    | Some (Dir _ _) => Done (Err EISDIR) w
    | None => Done (Err ENOENT) w
    end.

Definition os_ReadFile (name : string) : M (result (list byte)) :=
  do f <- os_Open name ;
  match f with
  | Err e => ret (Err e)
  | Ok h => read_all h
  end.

Definition default_file_mode : perm := Perm true true false.
Definition default_dir_mode : perm := Perm true true true.

(** [os.Create]: open for writing, creating the file or truncating it. *)
Definition os_Create (name : string) : M (result handle) :=
  fun w =>
    match locate w name with
    | Err e => Done (Err e) w
    | Ok p =>
      match traverse (fs w) [] p with
      | Some e => Done (Err e) w
      | None =>
        match fs w !! p with
        | Some (Dir _ _) => Done (Err EISDIR) w
        | Some (File m _ _) =>
          if p_write m
          then Done (Ok p) (set_fs (<[p := File m (now w) []]> (fs w)) w)
          else Done (Err EACCES) w
        | None =>
          match parent_writable (fs w) p with
          | Err e => Done (Err e) w
          | Ok _ =>
            Done (Ok p) (set_fs (<[p := File default_file_mode (now w) []]> (fs w)) w)
          end
        end
      end
    end.

(** [f.Write] on a file opened by [os_Create]: the device takes the
    bytes, or stops short and the file is left with what it took. *)
Definition file_Write (f : handle) (data : list byte) : M (option error) :=
  fun w =>
    match fs w !! f with
    | Some (File m _ _) =>
      match storage w f data with
      | Stored => Done None (set_fs (<[f := File m (now w) data]> (fs w)) w)
      | Short n e =>
        Done (Some e) (set_fs (<[f := File m (now w) (take n data)]> (fs w)) w)
      end
    | _ => Done (Some ENOENT) w
    end.

(** [os.MkdirAll], walking down from the root: what exists must be a
    directory, what is missing is created in its parent. *)
Definition ensure_dir (t : Z) (fs : fsys) (p : list string) : fsys * option error :=
  match fs !! p with
  | Some (Dir _ _) => (fs, None)
  | Some (File _ _ _) => (fs, Some ENOTDIR)
  | None =>
    match parent_writable fs p with
    | Err EBUSY => (fs, Some ENOENT)
    | Err e => (fs, Some e)
    | Ok _ => (<[p := Dir default_dir_mode t]> fs, None)
    end
  end.

Definition searchable (fs : fsys) (p : list string) : bool :=
  match fs !! p with
  | Some (Dir m _) => p_exec m
  | _ => false
  end.

Fixpoint mkdir_all (t : Z) (fs : fsys) (seen todo : list string) : fsys * option error :=
  match ensure_dir t fs seen with
  | (fs', Some e) => (fs', Some e)
  | (fs', None) =>
    match todo with
    | [] => (fs', None)
    | c :: rest =>
      if searchable fs' seen then mkdir_all t fs' (seen ++ [c]) rest
      else (fs', Some EACCES)
    end
  end.

Definition os_MkdirAll (name : string) : M (option error) :=
  fun w =>
    match locate w name with
    | Err e => Done (Some e) w
    | Ok p =>
      let '(fs', r) := mkdir_all (now w) (fs w) [] p in
      Done r (set_fs fs' w)
    end.

(** [os.UserHomeDir]: [$HOME], or an error (and the empty string) when it
    is not set. *)
Definition os_UserHomeDir : M (string * option error) :=
  fun w =>
    if decide (home w = EmptyString) then Done (EmptyString, Some ENOENT) w
    else Done (home w, None) w.

(** [time.Now] and [Time.AddDate(0, 0, days)], with days of 24 hours. *)
Definition time_Now : M Z := fun w => Done (now w) w.

Definition day : Z := 86400 * 1000000000.

Definition AddDate_days (t : Z) (days : Z) : Z := t + days * day.

(** [client.Get]: the request is issued; a status code, whatever it is,
    is not an error. *)
Record http_Response := mkResponse { Status : nat; Body : list byte * bool }.

Definition http_Get (url : string) : M (result http_Response) :=
  fun w =>
    match net w url with
    | NoResponse => Done (Err ErrTransport) (add_request url w)
    | Response code body complete =>
      Done (Ok (mkResponse code (body, complete))) (add_request url w)
    end.

(** [io.ReadAll] on a response body. *)
Definition io_ReadAll (body : list byte * bool) : M (result (list byte)) :=
  if snd body then ret (Ok (fst body)) else ret (Err ErrUnexpectedEOF).

(* ================================================================== *)
(** ** main.go *)
(* ================================================================== *)

Record Args := mkArgs {
  EverquestRoot : string;
  Verbose : bool;
  Expansion : string;
  Client : string
}.

Record fileEntry := mkEntry {
  Name : string;
  MD5 : string;
  Date : string;
  Size : N
}.

Record fileListYaml := mkList {
  Version : string;
  Deletes : list fileEntry;
  DownloadPrefix : string;
  Downloads : list fileEntry
}.

Definition md5OfData (data : list byte) : string :=
  Md5.hex (Md5.Sum data).

Definition md5OfFile (fileName : string) : M (result string) :=
  do f <- os_Open fileName ;
  match f with
  | Err e => ret (Err e)
  | Ok h =>
    do d <- read_all h ;
    match d with
    | Err e => ret (Err e)
    | Ok data => ret (Ok (md5OfData data))
    end
  end.

Definition getSettingsRoot : M string :=
  do ' (homeDir, _) <- os_UserHomeDir ;
  ret (filepath.Join homeDir ".config/fvpatcher").

Definition fileOrDirExists (path : string) : M bool :=
  do st <- os_Stat path ;
  match st with
  | Err e => if IsNotExist e then ret false else ret true
  | Ok _ => ret true
  end.

Definition writeFile (fileName : string) (data : list byte) : M (option error) :=
  do f <- os_Create fileName ;
  match f with
  | Err e => ret (Some e)
  | Ok h => file_Write h data
  end.

Definition fetchUrl (url : string) : M (result (list byte)) :=
  do response <- http_Get url ;
  match response with
  | Err e => ret (Err e)
  | Ok r => io_ReadAll (Body r)
  end.

Definition isCachedFileTooOld (fileName : string) (maxDays : Z) : M bool :=
  do st <- os_Stat fileName ;
  match st with
  | Err _ => ret true
  | Ok info =>
    let mod_ := ModTime info in
    do t <- time_Now ;
    let maxAge := AddDate_days t (- maxDays) in
    ret (mod_ <? maxAge)
  end.

Section Program.

(** [yaml.Unmarshal] into a [fileListYaml]: the decoder is a library the
    program is linked against. *)
Variable yaml_Unmarshal : list byte -> result fileListYaml.

(** The package-level variable [arg], as [kong.Parse] has filled it. *)
Variable arg : Args.

(** The body of the loop of [HandleDeleteRequests]: the new value of
    [deleteCount]. *)
Definition delete_entry (rootPath : string) (deleteCount : nat) (del : fileEntry) : M nat :=
  let fullPath := filepath.Join rootPath (Name del) in
  do found <- fileOrDirExists fullPath ;
  if found then
    println (PrintDeleting (Name del)) >>
    do err <- os_Remove fullPath ;
    match err with
    | Some e => println (PrintDeleteFailed e) >> ret deleteCount
    | None => ret (S deleteCount)
    end
  else ret deleteCount.

Fixpoint delete_loop (rootPath : string) (dels : list fileEntry) (deleteCount : nat) : M nat :=
  match dels with
  | [] => ret deleteCount
  | del :: rest =>
    do c <- delete_entry rootPath deleteCount del ;
    delete_loop rootPath rest c
  end.

Definition HandleDeleteRequests (flist : fileListYaml) (rootPath : string) : M unit :=
  println (PrintProcessingDeletes (length (Deletes flist))) >>
  do deleteCount <- delete_loop rootPath (Deletes flist) 0%nat ;
  println (PrintFilesDeleted deleteCount).

(** The first half of the loop body of [HandleDownloadRequests]: the
    value of [needDownload], or [None] where the source says
    [continue]. *)
Definition check_local (fullPath : string) (dl : fileEntry) : M (option bool) :=
  do found <- fileOrDirExists fullPath ;
  if found then
    do actualMD5 <- md5OfFile fullPath ;
    match actualMD5 with
    | Err e => println (PrintError e) >> ret None
    | Ok actual =>
      if decide (actual ≠ MD5 dl) then ret (Some true)
      else if Verbose arg then println (PrintOK (Name dl)) >> ret (Some false)
      else ret (Some false)
    end
  else ret (Some true).

(** The second half: fetch, compare, write. *)
Definition download (flist : fileListYaml) (fullPath : string) (downloadCount : nat)
    (dl : fileEntry) : M nat :=
  let fileURL := (DownloadPrefix flist +:+ Name dl)%string in
  println (PrintGet fileURL) >>
  do fetched <- fetchUrl fileURL ;
  match fetched with
  | Err e => log_Fatal e
  | Ok data =>
    let downloadedMD5 := md5OfData data in
    if decide (downloadedMD5 ≠ MD5 dl) then
      println (PrintMD5Mismatch downloadedMD5 (MD5 dl)) >>
      do err <- writeFile fullPath data ;
      (match err with
       | Some e => println (LogError e)
       | None => ret tt
       end) >>
      ret (S downloadCount)
    else ret downloadCount
  end.

Definition download_entry (flist : fileListYaml) (rootPath : string) (downloadCount : nat)
    (dl : fileEntry) : M nat :=
  let fullPath := filepath.Join rootPath (Name dl) in
  do needDownload <- check_local fullPath dl ;
  match needDownload with
  | None => ret downloadCount
  | Some true => download flist fullPath downloadCount dl
  | Some false => ret downloadCount
  end.

Fixpoint download_loop (flist : fileListYaml) (rootPath : string) (dls : list fileEntry)
    (downloadCount : nat) : M nat :=
  match dls with
  | [] => ret downloadCount
  | dl :: rest =>
    do c <- download_entry flist rootPath downloadCount dl ;
    download_loop flist rootPath rest c
  end.

Definition HandleDownloadRequests (flist : fileListYaml) (rootPath : string) : M unit :=
  println (PrintProcessingDownloads (length (Downloads flist))) >>
  do downloadCount <- download_loop flist rootPath (Downloads flist) 0%nat ;
  println (PrintFilesDownloaded downloadCount).

Definition filelistName : string :=
  ("filelist_" +:+ Client arg +:+ "." +:+ Expansion arg +:+ ".yml")%string.

Definition filelistFullPath : M string :=
  do root <- getSettingsRoot ;
  ret (filepath.Join root filelistName).

Definition filelistURL : string :=
  ("https://" +:+ Expansion arg +:+ ".fvproject.com/" +:+ Client arg
     +:+ "/filelist_" +:+ Client arg +:+ ".yml")%string.

(** The refresh of the cache, the body of the [if] of
    [DownloadFileList]: [Some] error where the source returns early. *)
Definition refresh (fullPath : string) : M (option error) :=
  println (PrintGetFilelist filelistURL) >>
  do fetched <- fetchUrl filelistURL ;
  match fetched with
  | Err e => ret (Some e)
  | Ok data =>
    do root <- getSettingsRoot ;
    do err <- os_MkdirAll root ;
    match err with
    | Some e => ret (Some e)
    | None => writeFile fullPath data
    end
  end.

(** [!fileOrDirExists(p) || isCachedFileTooOld(p, 7)], with the
    short-circuit of [||]. *)
Definition cache_invalid (fullPath : string) : M bool :=
  do found <- fileOrDirExists fullPath ;
  if negb found then ret true else isCachedFileTooOld fullPath 7.

Definition DownloadFileList (clientName expansion : string) : M (result fileListYaml) :=
  do fullPath <- filelistFullPath ;
  println (PrintFilelistURL filelistURL) >>
  do invalid <- cache_invalid fullPath ;
  do err <- (if invalid then refresh fullPath else ret None) ;
  match err with
  | Some e => ret (Err e)
  | None =>
    do read <- os_ReadFile filelistName ;
    match read with
    | Err e => ret (Err e)
    | Ok data => ret (yaml_Unmarshal data)
    end
  end.

Definition main : M unit :=
  do r <- DownloadFileList (Client arg) (Expansion arg) ;
  match r with
  | Err e => log_Fatal e
  | Ok flist =>
    println (PrintManifestVersion (Version flist)) >>
    HandleDeleteRequests flist (EverquestRoot arg) >>
    HandleDownloadRequests flist (EverquestRoot arg)
  end.

End Program.

(* ================================================================== *)
(** ** Observations *)
(* ================================================================== *)

(** The value a computation finishes with, when it finishes. *)
Definition value {A} (o : outcome A) : option A :=
  match o with
  | Done a _ => Some a
  | Fatal _ _ => None
  end.

(** The content of the regular file a name leads to. *)
Definition file_at (w : World) (name : string) : option (list byte) :=
  match locate w name with
  | Ok p =>
    match lookup_node (fs w) p with
    | Ok (File _ _ d) => Some d
    | _ => None
    end
  | Err _ => None
  end.

(** [needDownload] as the loop of [HandleDownloadRequests] finds it for an
    entry; [None] where the entry is skipped. *)
Definition needDownload (arg : Args) (rootPath : string) (dl : fileEntry) (w : World)
    : option bool :=
  match value (check_local arg (filepath.Join rootPath (Name dl)) dl w) with
  | Some r => r
  | None => None
  end.

(** Where the manifest is cached. *)
Definition cache_path (arg : Args) (w : World) : string :=
  default EmptyString (value (filelistFullPath arg w)).

(** The numbers the passes print. *)
Definition reported_downloads (w : World) : list nat :=
  omap (fun e => match e with PrintFilesDownloaded n => Some n | _ => None end) (console w).

Definition reported_attempts (w : World) : list nat :=
  omap (fun e => match e with PrintProcessingDownloads n => Some n | _ => None end) (console w).

(* ================================================================== *)
(** ** Scenarios *)
(* ================================================================== *)

Module Scenario.

Local Open Scope string_scope.

Definition rwx : perm := Perm true true true.
Definition rw_ : perm := Perm true true false.

(** An installation in [/eq] and a user whose home is [/home/u]. *)
Definition disk : fsys :=
  list_to_map
    [ ([], Dir rwx 0); (["eq"], Dir rwx 0);
      (["home"], Dir rwx 0); (["home"; "u"], Dir rwx 0) ].

Definition manifest_url : string :=
  "https://original.fvproject.com/rof/filelist_rof.yml".

(** A device that takes every write. *)
Definition sound_disk (f : list string) (data : list byte) : write_outcome := Stored.

(** The server: a manifest, a file [a.txt] holding [abc], its twin
    under [sub/], and an error page. *)
Definition server (url : string) : http_outcome :=
  if decide (url = manifest_url) then Response 200 (bytes "manifest") true
  else if decide (url = "https://dl/a.txt") then Response 200 (bytes "abc") true
  else if decide (url = "https://dl/sub/a.txt") then Response 200 (bytes "abc") true
  else if decide (url = "https://dl/gone.txt") then Response 404 (bytes "Not Found") true
  else NoResponse.

Definition start : World :=
  mkWorld disk "/home/u" "/home/u" (100 * day) server sound_disk [] [].

Definition args : Args := mkArgs "/eq" false "original" "rof".

Definition abc_md5 : string := "900150983cd24fb0d6963f7d28e17f72".

(** [a.txt] declared with the digest of [abc], and with another one. *)
Definition a_good : fileEntry := mkEntry "a.txt" abc_md5 EmptyString 3.
Definition a_bad : fileEntry := mkEntry "a.txt" "d41d8cd98f00b204e9800998ecf8427e" EmptyString 3.
Definition sub_bad : fileEntry := mkEntry "sub/a.txt" "d41d8cd98f00b204e9800998ecf8427e" EmptyString 3.
Definition missing : fileEntry := mkEntry "nowhere.txt" abc_md5 EmptyString 3.

Definition manifest (dls : list fileEntry) : fileListYaml :=
  mkList "1" [] "https://dl/" dls.

(** The same disk with [a.txt] installed. *)
Definition installed (mode : perm) (content : string) : World :=
  mkWorld (<[ ["eq"; "a.txt"] := File mode 0 (bytes content) ]> disk)
          "/home/u" "/home/u" (100 * day) server sound_disk [] [].

(** The cache directory of the user, holding a manifest last modified
    at [mtime]; [dir_mode] is the mode of [~/.config/fvpatcher]. *)
Definition cache_elements : list string :=
  ["home"; "u"; ".config"; "fvpatcher"; "filelist_rof.original.yml"].

Definition with_cache (dir_mode : perm) (mtime : Z) (working_dir : string) : World :=
  mkWorld (<[ cache_elements := File rw_ mtime (bytes "cached") ]>
           (<[ ["home"; "u"; ".config"; "fvpatcher"] := Dir dir_mode 0 ]>
            (<[ ["home"; "u"; ".config"] := Dir rwx 0 ]> disk)))
          working_dir "/home/u" (100 * day) server sound_disk [] [].

(** A file of the cache's name lying in the working directory. *)
Definition stray : World :=
  mkWorld (<[ ["home"; "u"; "filelist_rof.original.yml"]
              := File rw_ 0 (bytes "stray") ]> disk)
          "/home/u" "/home/u" (100 * day) server sound_disk [] [].

End Scenario.

(* ================================================================== *)
(** ** Further observations *)
(* ================================================================== *)

(** What [fileOrDirExists] answers for a name. *)
Definition exists_at (w : World) (name : string) : bool :=
  default true (value (fileOrDirExists name w)).

(** The URL an entry is fetched from. *)
Definition file_url (flist : fileListYaml) (dl : fileEntry) : string :=
  (DownloadPrefix flist +:+ Name dl)%string.

(** The lines a pass prints that report a failed removal. *)
Definition delete_failures (out : list event) : list error :=
  omap (fun ev => match ev with PrintDeleteFailed e => Some e | _ => None end) out.

(** The numbers the delete pass prints. *)
Definition reported_deletes (w : World) : list nat :=
  omap (fun e => match e with PrintFilesDeleted n => Some n | _ => None end) (console w).

(** The console without the lines only [Verbose] produces. *)
Definition is_ok_line (ev : event) : bool :=
  match ev with PrintOK _ => true | _ => false end.

Definition quiet (out : list event) : list event :=
  filter (fun ev => is_ok_line ev = false) out.

(** Everything a computation leaves alone unless it is the clock, the
    server or the environment: the setting of a world. *)
Definition same_setting (w w' : World) : Prop :=
  cwd w' = cwd w /\ home w' = home w /\ now w' = now w /\ net w' = net w /\
  storage w' = storage w.

(** [f'] differs from [f] by regular files only: directories are as they
    were, files that were there are still files of the same mode, and
    what is new is a regular file of the default mode. *)
Definition only_files_written (f f' : fsys) : Prop :=
  forall q,
    match f !! q with
    | Some (Dir m t) => f' !! q = Some (Dir m t)
    | Some (File m _ _) => exists t d, f' !! q = Some (File m t d)
    | None => f' !! q = None \/ exists t d, f' !! q = Some (File default_file_mode t d)
    end.

(** The shape of a digest as [md5OfData] prints it: thirty-two
    characters, each a digit or a letter from [a] to [f]. *)
Definition is_md5_hex (s : string) : bool :=
  (String.length s =? 32)%nat &&
  forallb (fun c => existsb (Ascii.eqb c) (list_ascii_of_string "0123456789abcdef"))
          (list_ascii_of_string s).

(** Two worlds that differ at most in the [OK] lines on the console. *)
Definition same_but_ok_lines (w w' : World) : Prop :=
  fs w' = fs w /\ same_setting w w' /\ requests w' = requests w /\
  quiet (console w') = quiet (console w).

(** Two outcomes that end the same way, in worlds that differ at most in
    the [OK] lines. *)
Definition same_outcome_but_ok_lines {A} (o o' : outcome A) : Prop :=
  match o, o' with
  | Done a w, Done a' w' => a = a' /\ same_but_ok_lines w w'
  | Fatal e w, Fatal e' w' => e = e' /\ same_but_ok_lines w w'
  | _, _ => False
  end.

(** A name none of whose elements is [..]. *)
Definition no_dotdot (name : string) : bool :=
  forallb (fun c => negb (String.eqb c "..")) (filepath.split name).

(** A file system is a tree when every node but the root lies in a
    directory. *)
Definition is_dir_at (f : fsys) (p : list string) : bool :=
  match f !! p with
  | Some (Dir _ _) => true
  | _ => false
  end.

Definition is_tree (f : fsys) : Prop :=
  map_Forall (fun q (_ : node) => q = [] \/ is_dir_at f (parent q) = true) f.

Global Instance is_tree_dec (f : fsys) : Decision (is_tree f).
Proof. unfold is_tree. apply _. Defined.

(** Path elements: one that [Clean] keeps as it is; one without a
    slash; one that a clean-up which is not rooted may keep. *)
Definition plain (c : string) : Prop :=
  c ≠ EmptyString /\ c ≠ "."%string /\ c ≠ ".."%string.

Definition slash_free (c : string) : Prop :=
  Forall (fun a => a ≠ "/"%char) (list_ascii_of_string c).

Definition tidy (c : string) : Prop :=
  c ≠ EmptyString /\ c ≠ "."%string /\ slash_free c.

(** Further inputs. *)
Module Cases.

Local Open Scope string_scope.

(** A manifest that only deletes. *)
Definition deleting (dels : list fileEntry) : fileListYaml :=
  mkList "1" dels "https://dl/" [].

(** [a.txt] declared with the digest of [abc] in capitals. *)
Definition a_capitals : fileEntry :=
  mkEntry "a.txt" "900150983CD24FB0D6963F7D28E17F72" EmptyString 3.

(** A world whose server does not answer. *)
Definition offline (w : World) : World :=
  mkWorld (fs w) (cwd w) (home w) (now w) (fun _ => NoResponse) (storage w)
          (requests w) (console w).

(** A world whose disk is full: a write takes no byte. *)
Definition full_disk (w : World) : World :=
  mkWorld (fs w) (cwd w) (home w) (now w) (net w) (fun _ _ => Short 0 ENOSPC)
          (requests w) (console w).

(** A decoder that takes anything for the manifest of one entry. *)
Definition any_yaml (dls : list fileEntry) (data : list byte) : result fileListYaml :=
  Ok (mkList "1" [] "https://dl/" dls).

(** A manifest with one entry to delete and one to download. *)
Definition both (del dl : fileEntry) : fileListYaml :=
  mkList "1" [del] "https://dl/" [dl].

End Cases.

(* ================================================================== *)
(** ** Properties *)
(* ================================================================== *)

Section Md5Vectors.

Local Open Scope string_scope.

(** The test suite of RFC 1321, and a message longer than one block. *)
Example md5_empty : md5OfData (bytes EmptyString) = "d41d8cd98f00b204e9800998ecf8427e".
Proof. vm_compute. reflexivity. Qed.

Example md5_abc : md5OfData (bytes "abc") = "900150983cd24fb0d6963f7d28e17f72".
Proof. vm_compute. reflexivity. Qed.

Example md5_two_blocks :
  md5OfData (bytes "aaaaaaaaaaaaaaaaaaaaaaaaaaaaaaaaaaaaaaaaaaaaaaaaaaaaaaaaaaaaaaaaaaaaaa")
  = "0f5c6c4e740bfcc08c3c26ccb2673d46".
Proof. vm_compute. reflexivity. Qed.

End Md5Vectors.

(** *** The local check leaves the world alone *)

Lemma fileOrDirExists_pure path w :
  exists b, fileOrDirExists path w = Done b w.
Proof.
  unfold fileOrDirExists, bind, os_Stat, ret.
  destruct (locate w path) as [p|e]; [destruct (lookup_node (fs w) p) as [n|e]|];
    try destruct (IsNotExist e); eauto.
Qed.

Lemma md5OfFile_pure fileName w :
  exists r, md5OfFile fileName w = Done r w.
Proof.
  unfold md5OfFile, bind, os_Open, read_all, ret.
  repeat case_match; simplify_eq; eauto.
Qed.

(** The check prints at most one line and changes nothing else. *)
Lemma check_local_frame arg fullPath dl w :
  exists r w', check_local arg fullPath dl w = Done r w' /\
    fs w' = fs w /\ requests w' = requests w /\ net w' = net w /\
    cwd w' = cwd w /\ now w' = now w /\
    (r = Some true -> w' = w) /\
    (console w' = console w \/
     (exists e, console w' = console w ++ [PrintError e]) \/
     console w' = console w ++ [PrintOK (Name dl)]).
Proof.
  unfold check_local, bind.
  destruct (fileOrDirExists_pure fullPath w) as [b ->].
  destruct b; [|unfold ret; eauto 12].
  destruct (md5OfFile_pure fullPath w) as [[h|e] ->].
  - destruct (decide (h ≠ MD5 dl)); [unfold ret; eauto 12|].
    destruct (Verbose arg); unfold bind, println, ret; simpl.
    + do 2 eexists; split; [reflexivity|]. repeat split; eauto; congruence.
    + do 2 eexists; split; [reflexivity|]. repeat split; eauto; congruence.
  - unfold bind, println, ret; simpl.
    do 2 eexists; split; [reflexivity|]. repeat split; eauto; congruence.
Qed.

Lemma needDownload_true arg rootPath dl w :
  needDownload arg rootPath dl w = Some true ->
  check_local arg (filepath.Join rootPath (Name dl)) dl w = Done (Some true) w.
Proof.
  unfold needDownload. intros H.
  destruct (check_local_frame arg (filepath.Join rootPath (Name dl)) dl w)
    as (r & w' & E & _ & _ & _ & _ & _ & Hw & _).
  rewrite E in *. simpl in H. subst r. rewrite (Hw eq_refl). reflexivity.
Qed.

(** *** Fetching *)

Lemma fetchUrl_unfold url w :
  fetchUrl url w =
  Done (match net w url with
        | NoResponse => Err ErrTransport
        | Response _ body true => Ok body
        | Response _ _ false => Err ErrUnexpectedEOF
        end) (add_request url w).
Proof.
  unfold fetchUrl, bind, http_Get, io_ReadAll, ret.
  destruct (net w url) as [|code body [|]]; reflexivity.
Qed.

Lemma download_loop_cons arg flist rootPath dl rest count w :
  download_loop arg flist rootPath (dl :: rest) count w =
  match download_entry arg flist rootPath count dl w with
  | Done c w' => download_loop arg flist rootPath rest c w'
  | Fatal e w' => Fatal e w'
  end.
Proof. reflexivity. Qed.

Lemma delete_loop_cons rootPath del rest count w :
  delete_loop rootPath (del :: rest) count w =
  match delete_entry rootPath count del w with
  | Done c w' => delete_loop rootPath rest c w'
  | Fatal e w' => Fatal e w'
  end.
Proof. reflexivity. Qed.

Lemma file_at_frame w w' name :
  fs w' = fs w -> cwd w' = cwd w -> file_at w' name = file_at w name.
Proof. unfold file_at, locate. intros -> ->. reflexivity. Qed.

(** C1. In the download pass, when an entry needs a fetch and the digest
    of the fetched bytes equals the entry's [MD5], the loop body leaves
    the file system as it was (the file at [fullPath] included), hands
    [downloadCount] on unchanged, and the pass goes on with the next
    entry. *)
Theorem verified_fetch_is_discarded
    (arg : Args) (flist : fileListYaml) (rootPath : string) (dl : fileEntry)
    (rest : list fileEntry) (count : nat) (w : World) (code : nat) (data : list byte) :
  needDownload arg rootPath dl w = Some true ->
  net w (DownloadPrefix flist +:+ Name dl) = Response code data true ->
  md5OfData data = MD5 dl ->
  exists w',
    download_entry arg flist rootPath count dl w = Done count w' /\
    fs w' = fs w /\
    file_at w' (filepath.Join rootPath (Name dl)) = file_at w (filepath.Join rootPath (Name dl)) /\
    download_loop arg flist rootPath (dl :: rest) count w
      = download_loop arg flist rootPath rest count w'.
Proof.
  intros Hneed Hnet Hmd5.
  assert (E : download_entry arg flist rootPath count dl w =
              Done count (add_request (DownloadPrefix flist +:+ Name dl)
                            (add_event (PrintGet (DownloadPrefix flist +:+ Name dl)) w))).
  { unfold download_entry, bind.
    rewrite (needDownload_true _ _ _ _ Hneed).
    unfold download, bind, println.
    rewrite fetchUrl_unfold. simpl. rewrite Hnet.
    destruct (decide (md5OfData data ≠ MD5 dl)) as [Hne|_]; [contradiction|].
    reflexivity. }
  eexists. split; [exact E|]. split; [reflexivity|]. split.
  - apply file_at_frame; reflexivity.
  - rewrite download_loop_cons, E. reflexivity.
Qed.

Lemma verified_fetch_is_discarded_witness :
  exists w',
    download_entry Scenario.args (Scenario.manifest [Scenario.a_good]) "/eq" 0
      Scenario.a_good Scenario.start = Done 0%nat w' /\
    fs w' = fs Scenario.start /\
    file_at w' (filepath.Join "/eq" (Name Scenario.a_good))
      = file_at Scenario.start (filepath.Join "/eq" (Name Scenario.a_good)) /\
    download_loop Scenario.args (Scenario.manifest [Scenario.a_good]) "/eq"
      [Scenario.a_good] 0 Scenario.start
      = download_loop Scenario.args (Scenario.manifest [Scenario.a_good]) "/eq" [] 0 w'.
Proof.
  apply (verified_fetch_is_discarded Scenario.args (Scenario.manifest [Scenario.a_good])
           "/eq" Scenario.a_good [] 0%nat Scenario.start 200%nat (bytes "abc")).
  - vm_compute. reflexivity.
  - vm_compute. reflexivity.
  - vm_compute. reflexivity.
Defined.

(** *** Writing *)

(** Resolution of a path never looks at the path's own node. *)
Lemma traverse_insert_end (f : fsys) (n : node) (todo seen : list string) :
  traverse (<[seen ++ todo := n]> f) seen todo = traverse f seen todo.
Proof.
  revert seen. induction todo as [|c rest IH]; intros seen; simpl; [reflexivity|].
  rewrite lookup_insert_ne.
  - destruct (f !! seen) as [[m t d|m t]|]; try reflexivity.
    destruct (p_exec m); [|reflexivity].
    specialize (IH (seen ++ [c])). rewrite <- app_assoc in IH. exact IH.
  - intros E. apply (f_equal length) in E. rewrite length_app in E. simpl in E. lia.
Qed.

Lemma lookup_node_Ok (f : fsys) p n :
  lookup_node f p = Ok n -> traverse f [] p = None /\ f !! p = Some n.
Proof.
  unfold lookup_node. destruct (traverse f [] p); [discriminate|].
  destruct (f !! p); [|discriminate]. intros [= ->]. auto.
Qed.

Lemma lookup_node_insert (f : fsys) p n :
  traverse f [] p = None -> lookup_node (<[p := n]> f) p = Ok n.
Proof.
  intros H. unfold lookup_node.
  pose proof (traverse_insert_end f n p []) as E. simpl in E.
  rewrite E, H, lookup_insert_eq. reflexivity.
Qed.

(** [writeFile] touches the file system only: either it succeeds and the
    name then leads to a file holding exactly [data], or it fails; then
    nothing has changed if the file could not be created, and the file
    holds a prefix of [data] if the write stopped short. *)
Lemma locate_set_fs (f : fsys) w name : locate (set_fs f w) name = locate w name.
Proof. reflexivity. Qed.

Lemma writeFile_cases name data w :
  exists r f',
    writeFile name data w = Done r (set_fs f' w) /\
    ((r = None /\ file_at (set_fs f' w) name = Some data) \/
     (exists e, r = Some e /\
        (f' = fs w \/
         exists n, file_at (set_fs f' w) name = Some (take n data)))).
Proof.
  assert (Hid : w = set_fs (fs w) w) by (destruct w; reflexivity).
  unfold writeFile, bind, os_Create, ret.
  destruct (locate w name) as [p|e] eqn:Hloc.
  2:{ exists (Some e), (fs w). rewrite <- Hid. eauto 6. }
  destruct (traverse (fs w) [] p) as [e|] eqn:Htr.
  { exists (Some e), (fs w). rewrite <- Hid. eauto 6. }
  assert (Hwrite : forall m,
            exists r f',
              file_Write p data (set_fs (<[p := File m (now w) []]> (fs w)) w)
                = Done r (set_fs f' w) /\
              ((r = None /\ file_at (set_fs f' w) name = Some data) \/
               (exists e, r = Some e /\
                  (f' = fs w \/
                   exists n, file_at (set_fs f' w) name = Some (take n data))))).
  { intros m. unfold file_Write. simpl. rewrite lookup_insert_eq.
    assert (Hat : forall d,
              file_at (set_fs (<[p := File m (now w) d]>
                                 (<[p := File m (now w) []]> (fs w))) w) name
              = Some d).
    { intros d. unfold file_at. rewrite locate_set_fs, Hloc. simpl.
      rewrite insert_insert_eq. rewrite lookup_node_insert by exact Htr.
      reflexivity. }
    destruct (storage w p data) as [|n e].
    - eexists None, _. split; [reflexivity|]. left. split; [reflexivity|]. apply Hat.
    - eexists (Some e), _. split; [reflexivity|]. right. exists e.
      split; [reflexivity|]. right. exists n. apply Hat. }
  destruct (fs w !! p) as [[m t d|m t]|] eqn:Hp.
  - destruct (p_write m).
    + apply (Hwrite m).
    + exists (Some EACCES), (fs w). rewrite <- Hid. eauto 6.
  - exists (Some EISDIR), (fs w). rewrite <- Hid. eauto 6.
  - destruct (parent_writable (fs w) p) as [[]|e].
    + apply (Hwrite default_file_mode).
    + exists (Some e), (fs w). rewrite <- Hid. eauto 6.
Qed.

(** A write that stops short leaves the file truncated: on a full disk
    [writeFile] over an installed [/eq/a.txt] returns the error of
    [f.Write], and the file that held [abc] is left empty. *)
Example writeFile_on_full_disk :
  let w := Cases.full_disk (Scenario.installed Scenario.rw_ "abc") in
  file_at w "/eq/a.txt" = Some (bytes "abc") /\
  value (writeFile "/eq/a.txt" (bytes "xyz") w) = Some (Some ENOSPC) /\
  file_at (world_of (writeFile "/eq/a.txt" (bytes "xyz") w)) "/eq/a.txt" = Some [].
Proof. cbv zeta. repeat split; vm_compute; reflexivity. Qed.

(** Whether a write goes through depends on the disk, the device, the
    working directory and the clock, not on what was printed or
    requested. *)
Lemma writeFile_same_disk name data w w1 :
  fs w1 = fs w -> cwd w1 = cwd w -> now w1 = now w -> storage w1 = storage w ->
  value (writeFile name data w1) = value (writeFile name data w).
Proof.
  destruct w, w1; simpl; intros -> -> -> ->.
  unfold writeFile, os_Create, file_Write, bind, ret, locate; simpl.
  repeat (case_match; simpl in *; simplify_eq); reflexivity.
Qed.

(** The second half of the loop body when the fetch brings bytes whose
    digest differs from the declared one. *)
Lemma download_mismatch flist fullPath dl count w code data :
  net w (DownloadPrefix flist +:+ Name dl) = Response code data true ->
  md5OfData data ≠ MD5 dl ->
  let url := (DownloadPrefix flist +:+ Name dl)%string in
  let w1 := add_event (PrintMD5Mismatch (md5OfData data) (MD5 dl))
              (add_request url (add_event (PrintGet url) w)) in
  download flist fullPath count dl w =
  match writeFile fullPath data w1 with
  | Done (Some e) w2 => Done (S count) (add_event (LogError e) w2)
  | Done None w2 => Done (S count) w2
  | Fatal e w2 => Fatal e w2
  end.
Proof.
  intros Hnet Hne url w1. unfold download, bind, println.
  rewrite fetchUrl_unfold. simpl. rewrite Hnet.
  destruct (decide (md5OfData data ≠ MD5 dl)) as [_|Heq]; [|contradiction].
  fold url. fold w1.
  destruct (writeFile fullPath data w1) as [[e|] w2|e w2]; reflexivity.
Qed.

(** C2, as the code has it. When an entry needs a fetch and the digest of
    the fetched bytes differs from the entry's [MD5], the loop body calls
    [writeFile fullPath data] and the pass goes on.  Where that write can
    be done, [fullPath] then holds exactly the fetched bytes, whatever it
    held before, and [downloadCount] is incremented.  Where it cannot,
    the error is logged. *)
Theorem mismatching_fetch_is_written
    (arg : Args) (flist : fileListYaml) (rootPath : string) (dl : fileEntry)
    (rest : list fileEntry) (count : nat) (w : World) (code : nat) (data : list byte) :
  needDownload arg rootPath dl w = Some true ->
  net w (DownloadPrefix flist +:+ Name dl) = Response code data true ->
  md5OfData data ≠ MD5 dl ->
  exists c' w',
    download_entry arg flist rootPath count dl w = Done c' w' /\
    download_loop arg flist rootPath (dl :: rest) count w
      = download_loop arg flist rootPath rest c' w' /\
    ((value (writeFile (filepath.Join rootPath (Name dl)) data w) = Some None /\
      file_at w' (filepath.Join rootPath (Name dl)) = Some data /\
      c' = S count) \/
     (exists e,
        value (writeFile (filepath.Join rootPath (Name dl)) data w) = Some (Some e) /\
        last (console w') = Some (LogError e))).
Proof.
  intros Hneed Hnet Hne.
  set (fullPath := filepath.Join rootPath (Name dl)).
  assert (E : download_entry arg flist rootPath count dl w
              = download flist fullPath count dl w).
  { unfold download_entry, bind.
    rewrite (needDownload_true _ _ _ _ Hneed). reflexivity. }
  rewrite download_loop_cons, E.
  rewrite (download_mismatch flist fullPath dl count w code data Hnet Hne).
  cbv zeta.
  match goal with |- context [writeFile fullPath data ?w1] =>
    pose proof (writeFile_same_disk fullPath data w w1 eq_refl eq_refl eq_refl eq_refl)
      as Hsame;
    destruct (writeFile_cases fullPath data w1) as (r & f' & Hw & Hcases);
    rewrite Hw in Hsame |- *
  end.
  simpl in Hsame. symmetry in Hsame.
  destruct Hcases as [[-> Hfile]|(e & -> & _)].
  - eexists _, _. split; [reflexivity|]. split; [reflexivity|]. left. auto.
  - eexists _, _. split; [reflexivity|]. split; [reflexivity|]. right.
    exists e. split; [exact Hsame|]. simpl. apply last_snoc.
Qed.

Lemma mismatching_fetch_is_written_witness :
  exists c' w',
    download_entry Scenario.args (Scenario.manifest [Scenario.a_bad]) "/eq" 0
      Scenario.a_bad Scenario.start = Done c' w' /\
    download_loop Scenario.args (Scenario.manifest [Scenario.a_bad]) "/eq"
      [Scenario.a_bad] 0 Scenario.start
      = download_loop Scenario.args (Scenario.manifest [Scenario.a_bad]) "/eq" [] c' w' /\
    ((value (writeFile (filepath.Join "/eq" (Name Scenario.a_bad)) (bytes "abc")
               Scenario.start) = Some None /\
      file_at w' (filepath.Join "/eq" (Name Scenario.a_bad)) = Some (bytes "abc") /\
      c' = 1%nat) \/
     (exists e,
        value (writeFile (filepath.Join "/eq" (Name Scenario.a_bad)) (bytes "abc")
                 Scenario.start) = Some (Some e) /\
        last (console w') = Some (LogError e))).
Proof.
  apply (mismatching_fetch_is_written Scenario.args (Scenario.manifest [Scenario.a_bad])
           "/eq" Scenario.a_bad [] 0%nat Scenario.start 200%nat (bytes "abc")).
  - vm_compute. reflexivity.
  - vm_compute. reflexivity.
  - vm_compute. discriminate.
Defined.

(** C2 as stated fails where the write cannot be done: [sub/a.txt] is
    fetched, its digest differs from the declared one, but [/eq/sub] does
    not exist and [os.Create] does not make it.  The fetched bytes are not
    at [fullPath] afterwards. *)
Lemma mismatching_fetch_write_can_fail :
  let flist := Scenario.manifest [Scenario.sub_bad] in
  let o := download_entry Scenario.args flist "/eq" 0 Scenario.sub_bad Scenario.start in
  needDownload Scenario.args "/eq" Scenario.sub_bad Scenario.start = Some true /\
  net Scenario.start (DownloadPrefix flist +:+ Name Scenario.sub_bad)
    = Response 200 (bytes "abc") true /\
  md5OfData (bytes "abc") ≠ MD5 Scenario.sub_bad /\
  file_at (world_of o) (filepath.Join "/eq" (Name Scenario.sub_bad)) ≠ Some (bytes "abc") /\
  last (console (world_of o)) = Some (LogError ENOENT).
Proof.
  cbv zeta. repeat split; try (vm_compute; reflexivity); vm_compute; discriminate.
Qed.

(** *** Entries that are up to date, entries that are fetched *)

Lemma fileOrDirExists_found name w p n :
  locate w name = Ok p -> lookup_node (fs w) p = Ok n ->
  fileOrDirExists name w = Done true w.
Proof.
  intros Hloc Hnode. unfold fileOrDirExists, os_Stat, bind, ret.
  rewrite Hloc, Hnode. reflexivity.
Qed.

Lemma md5OfFile_found name w p m t d :
  locate w name = Ok p -> lookup_node (fs w) p = Ok (File m t d) ->
  md5OfFile name w = Done (if p_read m then Ok (md5OfData d) else Err EACCES) w.
Proof.
  intros Hloc Hnode. destruct (lookup_node_Ok _ _ _ Hnode) as [_ Hp].
  unfold md5OfFile, os_Open, read_all, bind, ret.
  rewrite Hloc, Hnode. destruct (p_read m); [|reflexivity].
  cbv beta iota. rewrite Hp. reflexivity.
Qed.

Lemma check_local_up_to_date arg fullPath dl w data :
  file_at w fullPath = Some data ->
  md5OfData data = MD5 dl ->
  exists r w', check_local arg fullPath dl w = Done r w' /\ r ≠ Some true.
Proof.
  unfold file_at. intros Hfile Hmd5.
  destruct (locate w fullPath) as [p|] eqn:Hloc; [|discriminate].
  destruct (lookup_node (fs w) p) as [[m t d|]|] eqn:Hnode; try discriminate.
  injection Hfile as ->.
  unfold check_local, bind.
  rewrite (fileOrDirExists_found _ _ _ _ Hloc Hnode).
  rewrite (md5OfFile_found _ _ _ _ _ _ Hloc Hnode).
  destruct (p_read m).
  - rewrite Hmd5.
    destruct (decide (MD5 dl ≠ MD5 dl)) as [Hne|_]; [contradiction|].
    destruct (Verbose arg); unfold println, ret; eauto.
  - unfold println, ret; eauto.
Qed.

Lemma download_requests flist fullPath count dl w :
  requests (world_of (download flist fullPath count dl w))
  = requests w ++ [(DownloadPrefix flist +:+ Name dl)%string].
Proof.
  unfold download, bind, println, log_Fatal, ret. rewrite fetchUrl_unfold. simpl.
  destruct (net w (DownloadPrefix flist +:+ Name dl)) as [|code body [|]]; try reflexivity.
  destruct (decide (md5OfData body ≠ MD5 dl)); [|reflexivity].
  match goal with |- context [writeFile fullPath body ?w1] =>
    destruct (writeFile_cases fullPath body w1) as (r & f' & -> & _)
  end.
  destruct r; reflexivity.
Qed.

(** C8. An entry whose local file exists with the declared digest is left
    alone: [needDownload] is not set, so the fetch URL is never built, no
    request is issued, nothing of the form [GET url] is printed and the
    file system, the file included, is unchanged.  An entry that needs a
    fetch causes exactly one request, to [DownloadPrefix + Name]. *)
Theorem up_to_date_entry_is_not_fetched
    (arg : Args) (flist : fileListYaml) (rootPath : string) (dl : fileEntry)
    (count : nat) (w : World) :
  let fullPath := filepath.Join rootPath (Name dl) in
  (forall data,
     file_at w fullPath = Some data ->
     md5OfData data = MD5 dl ->
     needDownload arg rootPath dl w ≠ Some true /\
     exists w' out,
       download_entry arg flist rootPath count dl w = Done count w' /\
       fs w' = fs w /\
       file_at w' fullPath = Some data /\
       requests w' = requests w /\
       console w' = console w ++ out /\
       forall url, PrintGet url ∉ out) /\
  (needDownload arg rootPath dl w = Some true ->
   requests (world_of (download_entry arg flist rootPath count dl w))
   = requests w ++ [(DownloadPrefix flist +:+ Name dl)%string]).
Proof.
  intros fullPath. split.
  - intros data Hfile Hmd5.
    destruct (check_local_up_to_date arg fullPath dl w data Hfile Hmd5) as (r & w' & E & Hr).
    destruct (check_local_frame arg fullPath dl w)
      as (r0 & w0 & E0 & Hfs & Hreq & _ & Hcwd & _ & _ & Hout).
    rewrite E in E0. injection E0 as <- <-.
    split.
    { unfold needDownload. fold fullPath. rewrite E. exact Hr. }
    assert (Hentry : download_entry arg flist rootPath count dl w = Done count w').
    { unfold download_entry, bind. fold fullPath. rewrite E.
      destruct r as [[|]|]; [contradiction Hr| |]; reflexivity. }
    assert (Hkeep : file_at w' fullPath = Some data).
    { rewrite (file_at_frame w w' fullPath Hfs Hcwd). exact Hfile. }
    destruct Hout as [Hc|[(e & Hc)|Hc]].
    + exists w', []. rewrite app_nil_r. repeat split; auto. intros url Hin. inversion Hin.
    + exists w', [PrintError e]. repeat split; auto.
      intros url Hin. apply list_elem_of_singleton in Hin. discriminate.
    + exists w', [PrintOK (Name dl)]. repeat split; auto.
      intros url Hin. apply list_elem_of_singleton in Hin. discriminate.
  - intros Hneed. unfold download_entry, bind.
    rewrite (needDownload_true _ _ _ _ Hneed). apply download_requests.
Qed.

Lemma up_to_date_entry_is_not_fetched_witness :
  (needDownload Scenario.args "/eq" Scenario.a_good (Scenario.installed Scenario.rw_ "abc")
     ≠ Some true /\
   exists w' out,
     download_entry Scenario.args (Scenario.manifest [Scenario.a_good]) "/eq" 0
       Scenario.a_good (Scenario.installed Scenario.rw_ "abc") = Done 0%nat w' /\
     fs w' = fs (Scenario.installed Scenario.rw_ "abc") /\
     file_at w' (filepath.Join "/eq" (Name Scenario.a_good)) = Some (bytes "abc") /\
     requests w' = requests (Scenario.installed Scenario.rw_ "abc") /\
     console w' = console (Scenario.installed Scenario.rw_ "abc") ++ out /\
     forall url, PrintGet url ∉ out) /\
  requests (world_of (download_entry Scenario.args (Scenario.manifest [Scenario.a_good])
                        "/eq" 0 Scenario.a_good Scenario.start))
  = requests Scenario.start ++ ["https://dl/a.txt"%string].
Proof.
  split.
  - apply (proj1 (up_to_date_entry_is_not_fetched Scenario.args
                    (Scenario.manifest [Scenario.a_good]) "/eq" Scenario.a_good 0%nat
                    (Scenario.installed Scenario.rw_ "abc")) (bytes "abc")).
    + vm_compute. reflexivity.
    + vm_compute. reflexivity.
  - apply (proj2 (up_to_date_entry_is_not_fetched Scenario.args
                    (Scenario.manifest [Scenario.a_good]) "/eq" Scenario.a_good 0%nat
                    Scenario.start)).
    vm_compute. reflexivity.
Defined.

(** *** Failures: skipped or fatal *)

Lemma os_Remove_failure name w e :
  value (os_Remove name w) = Some (Some e) -> os_Remove name w = Done (Some e) w.
Proof.
  unfold os_Remove. repeat case_match; simpl; intros [= <-]; reflexivity.
Qed.

Lemma os_Remove_add_event name ev w e :
  os_Remove name w = Done (Some e) w ->
  os_Remove name (add_event ev w) = Done (Some e) (add_event ev w).
Proof.
  unfold os_Remove. replace (locate (add_event ev w) name) with (locate w name) by reflexivity.
  replace (fs (add_event ev w)) with (fs w) by reflexivity.
  repeat case_match; intros [= <-]; try reflexivity; discriminate.
Qed.

Lemma value_pure {A} (m : M A) w a :
  (exists r, m w = Done r w) -> value (m w) = Some a -> m w = Done a w.
Proof. intros [r E]. rewrite E. simpl. intros [= ->]. reflexivity. Qed.

(** The loops run entry after entry. *)
Lemma delete_loop_app rootPath pre post count w :
  delete_loop rootPath (pre ++ post) count w =
  match delete_loop rootPath pre count w with
  | Done c w' => delete_loop rootPath post c w'
  | Fatal e w' => Fatal e w'
  end.
Proof.
  revert count w. induction pre as [|d pre IH]; intros count w; [reflexivity|].
  simpl app. rewrite !delete_loop_cons.
  destruct (delete_entry rootPath count d w) as [c w'|e w']; [apply IH|reflexivity].
Qed.

Lemma download_loop_app arg flist rootPath pre post count w :
  download_loop arg flist rootPath (pre ++ post) count w =
  match download_loop arg flist rootPath pre count w with
  | Done c w' => download_loop arg flist rootPath post c w'
  | Fatal e w' => Fatal e w'
  end.
Proof.
  revert count w. induction pre as [|d pre IH]; intros count w; [reflexivity|].
  simpl app. rewrite !download_loop_cons.
  destruct (download_entry arg flist rootPath count d w) as [c w'|e w'];
    [apply IH|reflexivity].
Qed.

(** One entry, three failures. *)
Lemma delete_entry_remove_fails rootPath del count w e :
  value (fileOrDirExists (filepath.Join rootPath (Name del)) w) = Some true ->
  value (os_Remove (filepath.Join rootPath (Name del)) w) = Some (Some e) ->
  delete_entry rootPath count del w
  = Done count (add_event (PrintDeleteFailed e) (add_event (PrintDeleting (Name del)) w)).
Proof.
  intros Hex Hrm.
  apply value_pure in Hex; [|apply fileOrDirExists_pure].
  apply os_Remove_failure in Hrm.
  unfold delete_entry, bind. rewrite Hex. unfold println.
  rewrite (os_Remove_add_event _ (PrintDeleting (Name del)) _ _ Hrm). reflexivity.
Qed.

Lemma download_entry_hash_fails arg flist rootPath dl count w e :
  value (fileOrDirExists (filepath.Join rootPath (Name dl)) w) = Some true ->
  value (md5OfFile (filepath.Join rootPath (Name dl)) w) = Some (Err e) ->
  download_entry arg flist rootPath count dl w = Done count (add_event (PrintError e) w).
Proof.
  intros Hex Hmd5.
  apply value_pure in Hex; [|apply fileOrDirExists_pure].
  apply value_pure in Hmd5; [|apply md5OfFile_pure].
  unfold download_entry, check_local, bind. rewrite Hex, Hmd5. reflexivity.
Qed.

Lemma download_entry_fetch_fails arg flist rootPath dl count w e :
  let url := (DownloadPrefix flist +:+ Name dl)%string in
  needDownload arg rootPath dl w = Some true ->
  value (fetchUrl url w) = Some (Err e) ->
  download_entry arg flist rootPath count dl w
  = Fatal e (add_event (LogFatal e) (add_request url (add_event (PrintGet url) w))).
Proof.
  intros url Hneed Hfetch.
  rewrite fetchUrl_unfold in Hfetch. simpl in Hfetch.
  unfold download_entry, bind.
  rewrite (needDownload_true _ _ _ _ Hneed).
  unfold download, bind, println. rewrite fetchUrl_unfold. fold url. simpl.
  destruct (net w url) as [|code body [|]]; try discriminate Hfetch;
    injection Hfetch as <-; reflexivity.
Qed.

(** C9. Let a pass have worked through the entries [pre] and stand at
    [entry] with counter [count] in world [w].  In the delete pass, a
    removal that fails costs two printed lines and the pass goes on with
    the entries after it, counter and file system as they were.  In the
    download pass, a local file that cannot be hashed costs one printed
    line and the pass goes on likewise.  A fetch that fails stops the
    process ([log.Fatal]) whatever entries remain: the loop, and with it
    [HandleDownloadRequests], ends there, and nothing further is
    requested. *)
Theorem failed_entries_skip_but_failed_fetch_aborts
    (arg : Args) (flist : fileListYaml) (rootPath : string)
    (pre : list fileEntry) (entry : fileEntry) (rest : list fileEntry)
    (count : nat) (w0 w : World) (e : error) :
  let fullPath := filepath.Join rootPath (Name entry) in
  let url := (DownloadPrefix flist +:+ Name entry)%string in
  (delete_loop rootPath pre 0 w0 = Done count w ->
   value (fileOrDirExists fullPath w) = Some true ->
   value (os_Remove fullPath w) = Some (Some e) ->
   delete_loop rootPath (pre ++ entry :: rest) 0 w0
   = delete_loop rootPath rest count
       (add_event (PrintDeleteFailed e) (add_event (PrintDeleting (Name entry)) w))) /\
  (download_loop arg flist rootPath pre 0 w0 = Done count w ->
   value (fileOrDirExists fullPath w) = Some true ->
   value (md5OfFile fullPath w) = Some (Err e) ->
   download_loop arg flist rootPath (pre ++ entry :: rest) 0 w0
   = download_loop arg flist rootPath rest count (add_event (PrintError e) w)) /\
  (download_loop arg flist rootPath pre 0
     (add_event (PrintProcessingDownloads (length (Downloads flist))) w0) = Done count w ->
   needDownload arg rootPath entry w = Some true ->
   value (fetchUrl url w) = Some (Err e) ->
   let stopped := add_event (LogFatal e) (add_request url (add_event (PrintGet url) w)) in
   download_loop arg flist rootPath (pre ++ entry :: rest) 0
     (add_event (PrintProcessingDownloads (length (Downloads flist))) w0)
   = Fatal e stopped /\
   (Downloads flist = pre ++ entry :: rest ->
    HandleDownloadRequests arg flist rootPath w0 = Fatal e stopped)).
Proof.
  intros fullPath url. split; [|split].
  - intros Hpre Hex Hrm.
    rewrite delete_loop_app, Hpre, delete_loop_cons.
    rewrite (delete_entry_remove_fails rootPath entry count w e Hex Hrm). reflexivity.
  - intros Hpre Hex Hmd5.
    rewrite download_loop_app, Hpre, download_loop_cons.
    rewrite (download_entry_hash_fails arg flist rootPath entry count w e Hex Hmd5).
    reflexivity.
  - intros Hpre Hneed Hfetch stopped.
    assert (Hloop : download_loop arg flist rootPath (pre ++ entry :: rest) 0
              (add_event (PrintProcessingDownloads (length (Downloads flist))) w0)
            = Fatal e stopped).
    { rewrite download_loop_app, Hpre, download_loop_cons.
      rewrite (download_entry_fetch_fails arg flist rootPath entry count w e Hneed Hfetch).
      reflexivity. }
    split; [exact Hloop|].
    intros Hlist. rewrite <- Hlist in Hloop.
    unfold HandleDownloadRequests, bind, println. rewrite Hloop. reflexivity.
Qed.

Lemma failed_entries_skip_but_failed_fetch_aborts_witness :
  delete_loop "/" ([] ++ [mkEntry "home" EmptyString EmptyString 0; Scenario.a_good]) 0
    Scenario.start
  = delete_loop "/" [Scenario.a_good] 0
      (add_event (PrintDeleteFailed ENOTEMPTY)
         (add_event (PrintDeleting "home") Scenario.start)) /\
  download_loop Scenario.args (Scenario.manifest []) "/eq"
    ([] ++ [Scenario.a_good; Scenario.missing]) 0
    (Scenario.installed (Perm false true false) "abc")
  = download_loop Scenario.args (Scenario.manifest []) "/eq" [Scenario.missing] 0
      (add_event (PrintError EACCES) (Scenario.installed (Perm false true false) "abc")) /\
  let flist := Scenario.manifest [Scenario.missing; Scenario.a_good] in
  let stopped :=
    add_event (LogFatal ErrTransport)
      (add_request "https://dl/nowhere.txt"
         (add_event (PrintGet "https://dl/nowhere.txt")
            (add_event (PrintProcessingDownloads 2) Scenario.start))) in
  download_loop Scenario.args flist "/eq" ([] ++ [Scenario.missing; Scenario.a_good]) 0
    (add_event (PrintProcessingDownloads 2) Scenario.start)
  = Fatal ErrTransport stopped /\
  HandleDownloadRequests Scenario.args flist "/eq" Scenario.start
  = Fatal ErrTransport stopped.
Proof.
  split; [|split].
  - apply (proj1 (failed_entries_skip_but_failed_fetch_aborts Scenario.args
                    (Scenario.manifest []) "/" [] (mkEntry "home" EmptyString EmptyString 0)
                    [Scenario.a_good] 0%nat Scenario.start Scenario.start ENOTEMPTY));
      vm_compute; reflexivity.
  - apply (proj1 (proj2 (failed_entries_skip_but_failed_fetch_aborts Scenario.args
                    (Scenario.manifest []) "/eq" [] Scenario.a_good [Scenario.missing] 0%nat
                    (Scenario.installed (Perm false true false) "abc")
                    (Scenario.installed (Perm false true false) "abc") EACCES)));
      vm_compute; reflexivity.
  - destruct (proj2 (proj2 (failed_entries_skip_but_failed_fetch_aborts Scenario.args
                    (Scenario.manifest [Scenario.missing; Scenario.a_good]) "/eq" []
                    Scenario.missing [Scenario.a_good] 0%nat Scenario.start
                    (add_event (PrintProcessingDownloads 2) Scenario.start) ErrTransport)))
      as [Hloop Hpass]; [vm_compute; reflexivity ..|].
    split; [exact Hloop|apply Hpass; reflexivity].
Defined.

(** *** The remote fetcher *)

(** C4, as the code has it. [fetchUrl] issues one request and fails
    exactly when no response is obtained or the body breaks off; a
    response whose body arrives whole is returned with a [nil] error
    whatever its status code. *)
Theorem fetchUrl_ignores_status (url : string) (w : World) :
  exists r,
    fetchUrl url w = Done r (add_request url w) /\
    match net w url with
    | NoResponse => r = Err ErrTransport
    | Response code body complete =>
      r = if complete then Ok body else Err ErrUnexpectedEOF
    end.
Proof.
  rewrite fetchUrl_unfold. eexists. split; [reflexivity|].
  destruct (net w url) as [|code body [|]]; reflexivity.
Qed.

(** C4 as stated fails on a 404: the error page comes back as content. *)
Lemma fetchUrl_returns_error_pages :
  net Scenario.start "https://dl/gone.txt" = Response 404 (bytes "Not Found") true /\
  value (fetchUrl "https://dl/gone.txt" Scenario.start) = Some (Ok (bytes "Not Found")).
Proof. split; vm_compute; reflexivity. Qed.

(** *** The manifest cache *)

Lemma getSettingsRoot_pure w :
  exists root, getSettingsRoot w = Done root w.
Proof.
  unfold getSettingsRoot, os_UserHomeDir, bind, ret.
  destruct (decide (home w = EmptyString)); eauto.
Qed.

Lemma filelistFullPath_pure arg w :
  filelistFullPath arg w = Done (cache_path arg w) w.
Proof.
  unfold cache_path, filelistFullPath, bind.
  destruct (getSettingsRoot_pure w) as [root ->]. reflexivity.
Qed.

Lemma os_Stat_pure name w :
  exists r, os_Stat name w = Done r w.
Proof. unfold os_Stat. repeat case_match; eauto. Qed.

Lemma os_Stat_add_event name ev w r :
  os_Stat name w = Done r w -> os_Stat name (add_event ev w) = Done r (add_event ev w).
Proof.
  unfold os_Stat. replace (locate (add_event ev w) name) with (locate w name) by reflexivity.
  replace (fs (add_event ev w)) with (fs w) by reflexivity.
  repeat case_match; intros [= <-]; reflexivity.
Qed.

(** The condition of the [if] of [DownloadFileList], from what [os.Stat]
    finds. *)
Lemma cache_invalid_unfold fullPath w st :
  os_Stat fullPath w = Done st w ->
  cache_invalid fullPath w =
  Done (match st with
        | Err _ => true
        | Ok info => ModTime info <? now w - 7 * day
        end) w.
Proof.
  intros Hst. unfold cache_invalid, fileOrDirExists, isCachedFileTooOld, bind, ret.
  rewrite Hst. destruct st as [info|e].
  - simpl. rewrite Hst. unfold time_Now, AddDate_days.
    replace (now w + - (7) * day) with (now w - 7 * day) by lia. reflexivity.
  - destruct (IsNotExist e); simpl; [reflexivity|]. rewrite Hst. reflexivity.
Qed.

Lemma os_MkdirAll_frame name w :
  exists r f', os_MkdirAll name w = Done r (set_fs f' w).
Proof.
  unfold os_MkdirAll. destruct (locate w name) as [p|e].
  - destruct (mkdir_all (now w) (fs w) [] p) as [f' r]. eauto.
  - exists (Some e), (fs w). destruct w; reflexivity.
Qed.

(** A refresh issues one request, to the manifest URL, and never stops
    the process by itself. *)
Lemma refresh_requests arg fullPath w :
  exists r w', refresh arg fullPath w = Done r w' /\
    requests w' = requests w ++ [filelistURL arg] /\ cwd w' = cwd w.
Proof.
  unfold refresh, bind, println. rewrite fetchUrl_unfold. simpl.
  destruct (net w (filelistURL arg)) as [|code body [|]]; unfold ret; eauto.
  match goal with |- context [getSettingsRoot ?w1] =>
    destruct (getSettingsRoot_pure w1) as [root ->];
    destruct (os_MkdirAll_frame root w1) as (r & f1 & ->)
  end.
  destruct r as [e|]; [eauto|].
  match goal with |- context [writeFile fullPath body ?w2] =>
    destruct (writeFile_cases fullPath body w2) as (r & f2 & -> & _)
  end.
  eauto.
Qed.

Lemma os_ReadFile_pure name w :
  exists r, os_ReadFile name w = Done r w.
Proof.
  unfold os_ReadFile, os_Open, read_all, bind, ret.
  repeat case_match; simplify_eq; eauto.
Qed.

(** What [DownloadFileList] requests, from what [os.Stat] finds at the
    cache path. *)
Lemma DownloadFileList_requests yaml arg clientName expansion w st :
  os_Stat (cache_path arg w) w = Done st w ->
  requests (world_of (DownloadFileList yaml arg clientName expansion w)) =
  if match st with
     | Err _ => true
     | Ok info => ModTime info <? now w - 7 * day
     end
  then requests w ++ [filelistURL arg]
  else requests w.
Proof.
  intros Hst. unfold DownloadFileList, bind.
  rewrite filelistFullPath_pure. unfold println.
  rewrite (cache_invalid_unfold _ _ st)
    by (apply os_Stat_add_event; exact Hst).
  replace (now (add_event (PrintFilelistURL (filelistURL arg)) w)) with (now w) by reflexivity.
  set (b := match st with Err _ => true | Ok info => ModTime info <? now w - 7 * day end).
  destruct b.
  - match goal with |- context [refresh arg ?p ?w1] =>
      destruct (refresh_requests arg p w1) as (r & w2 & -> & Hreq & _)
    end.
    destruct r as [e|]; [exact Hreq|].
    destruct (os_ReadFile_pure (filelistName arg) w2) as [rd ->].
    destruct rd; exact Hreq.
  - unfold ret at 1.
    match goal with |- context [os_ReadFile ?n ?w1] =>
      destruct (os_ReadFile_pure n w1) as [rd ->]
    end.
    destruct rd; reflexivity.
Qed.

(** C7, as the code has it. Resolution issues a request, one, to the
    manifest URL, exactly when [os.Stat] of the cache path fails (the file
    is missing, or cannot be reached) or reports a modification time more
    than seven days back; it issues none exactly when [os.Stat] succeeds
    with a modification time at most seven days back. *)
Theorem cache_refetched_iff_unstatable_or_old
    (yaml : list byte -> result fileListYaml) (arg : Args)
    (clientName expansion : string) (w : World) :
  let st := value (os_Stat (cache_path arg w) w) in
  let w' := world_of (DownloadFileList yaml arg clientName expansion w) in
  (requests w' = requests w ++ [filelistURL arg] <->
   (exists e, st = Some (Err e)) \/
   (exists info, st = Some (Ok info) /\ ModTime info < now w - 7 * day)) /\
  (requests w' = requests w <->
   exists info, st = Some (Ok info) /\ now w - 7 * day <= ModTime info).
Proof.
  intros st w'. subst st w'.
  destruct (os_Stat_pure (cache_path arg w) w) as [st Hst].
  rewrite (DownloadFileList_requests yaml arg clientName expansion w st Hst).
  rewrite Hst. simpl.
  assert (Hne : requests w ++ [filelistURL arg] ≠ requests w).
  { intros E. apply (f_equal length) in E. rewrite length_app in E. simpl in E. lia. }
  destruct st as [info|e].
  - destruct (Z.ltb_spec (ModTime info) (now w - 7 * day)) as [Hlt|Hge].
    + split; split.
      * intros _. right. eauto.
      * reflexivity.
      * intros E. contradiction.
      * intros (i & [= <-] & Hi). lia.
    + split; split.
      * intros E. symmetry in E. contradiction.
      * intros [(e & [=])|(i & [= <-] & Hi)]. lia.
      * intros _. eauto.
      * reflexivity.
  - split; split.
    + intros _. left. eauto.
    + reflexivity.
    + intros E. contradiction.
    + intros (i & [=] & _).
Qed.

(** C7 as stated fails where the cache cannot be reached: the file is
    there, one day old, in a directory that may not be searched.
    [os.Stat] fails with an error other than "not exist", so the file
    counts as existing and as too old, and the manifest is requested. *)
Lemma young_cache_refetched_when_unreachable :
  let w := Scenario.with_cache (Perm true true false) (99 * day) "/home/u" in
  fs w !! Scenario.cache_elements = Some (File Scenario.rw_ (99 * day) (bytes "cached")) /\
  locate w (cache_path Scenario.args w) = Ok Scenario.cache_elements /\
  now w - 7 * day <= 99 * day /\
  forall yaml,
    requests (world_of (DownloadFileList yaml Scenario.args "rof" "original" w))
    = [Scenario.manifest_url].
Proof.
  cbv zeta. repeat split; try (vm_compute; reflexivity).
  vm_compute. discriminate.
Qed.

(** The threshold at work, the program started inside the cache
    directory: a cache one day old, or seven days old to the nanosecond,
    is decoded without a request; a cache eight days old is replaced by
    what the server sends. *)
Example cache_one_day_old yaml :
  let o := DownloadFileList yaml Scenario.args "rof" "original"
             (Scenario.with_cache Scenario.rwx (99 * day) "/home/u/.config/fvpatcher") in
  requests (world_of o) = [] /\ value o = Some (yaml (bytes "cached")).
Proof. cbv zeta. split; vm_compute; reflexivity. Qed.

Example cache_seven_days_old yaml :
  let o := DownloadFileList yaml Scenario.args "rof" "original"
             (Scenario.with_cache Scenario.rwx (93 * day) "/home/u/.config/fvpatcher") in
  requests (world_of o) = [] /\ value o = Some (yaml (bytes "cached")).
Proof. cbv zeta. split; vm_compute; reflexivity. Qed.

Example cache_eight_days_old yaml :
  let o := DownloadFileList yaml Scenario.args "rof" "original"
             (Scenario.with_cache Scenario.rwx (92 * day) "/home/u/.config/fvpatcher") in
  requests (world_of o) = [Scenario.manifest_url] /\
  value o = Some (yaml (bytes "manifest")).
Proof. cbv zeta. split; vm_compute; reflexivity. Qed.

(** C10. [DownloadFileList] never reads its parameters: with [arg] fixed,
    any two choices of [clientName] and [expansion] give the same
    computation.  The cache file name, the cache path and the manifest
    URL are built from [arg.Client] and [arg.Expansion], and whatever is
    requested is requested from that URL. *)
Theorem DownloadFileList_ignores_parameters
    (yaml : list byte -> result fileListYaml) (arg : Args)
    (clientName expansion clientName' expansion' : string) (w : World) :
  DownloadFileList yaml arg clientName expansion
    = DownloadFileList yaml arg clientName' expansion' /\
  filelistName arg
    = ("filelist_" +:+ Client arg +:+ "." +:+ Expansion arg +:+ ".yml")%string /\
  cache_path arg w
    = filepath.Join (filepath.Join (home w) ".config/fvpatcher") (filelistName arg) /\
  filelistURL arg
    = ("https://" +:+ Expansion arg +:+ ".fvproject.com/" +:+ Client arg
         +:+ "/filelist_" +:+ Client arg +:+ ".yml")%string /\
  (requests (world_of (DownloadFileList yaml arg clientName expansion w)) = requests w \/
   requests (world_of (DownloadFileList yaml arg clientName expansion w))
     = requests w ++ [filelistURL arg]).
Proof.
  split; [reflexivity|]. split; [reflexivity|]. split; [|split; [reflexivity|]].
  - unfold cache_path, filelistFullPath, getSettingsRoot, os_UserHomeDir, bind, ret.
    destruct (decide (home w = EmptyString)) as [E|_]; [rewrite E|]; reflexivity.
  - destruct (os_Stat_pure (cache_path arg w) w) as [st Hst].
    rewrite (DownloadFileList_requests yaml arg clientName expansion w st Hst).
    destruct (match st with Err _ => true | Ok info => ModTime info <? now w - 7 * day end);
      auto.
Qed.

(** C3, at a failing input: no cache yet, the program started in the
    user's home.  The manifest is fetched and stored at the cache path,
    then [os.ReadFile] is given the bare file name, which leads into the
    working directory: nothing is there, and resolution fails.  With a
    file of that name in the working directory, that file is what gets
    decoded, not the cache. *)
Theorem manifest_is_read_from_working_directory
    (yaml : list byte -> result fileListYaml) :
  let run := DownloadFileList yaml Scenario.args "rof" "original" in
  (file_at (world_of (run Scenario.start)) (cache_path Scenario.args Scenario.start)
     = Some (bytes "manifest") /\
   value (run Scenario.start) = Some (Err ENOENT)) /\
  (file_at (world_of (run Scenario.stray)) (cache_path Scenario.args Scenario.stray)
     = Some (bytes "manifest") /\
   value (run Scenario.stray) = Some (yaml (bytes "stray"))).
Proof. cbv zeta. repeat split; vm_compute; reflexivity. Qed.

(** C5, at a failing input: [sub/a.txt] arrives with a digest other than
    the declared one and cannot be written, [/eq/sub] being absent.  The
    pass logs the error, leaves the disk as it was, and reports one file
    downloaded. *)
Theorem failed_write_is_counted :
  let flist := Scenario.manifest [Scenario.sub_bad] in
  let w' := world_of (HandleDownloadRequests Scenario.args flist "/eq" Scenario.start) in
  console w' =
    [ PrintProcessingDownloads 1;
      PrintGet "https://dl/sub/a.txt";
      PrintMD5Mismatch Scenario.abc_md5 (MD5 Scenario.sub_bad);
      LogError ENOENT;
      PrintFilesDownloaded 1 ] /\
  fs w' = fs Scenario.start /\
  file_at w' "/eq/sub/a.txt" = None /\
  reported_downloads w' = [1%nat].
Proof. cbv zeta. repeat split; vm_compute; reflexivity. Qed.

(** C6, at the scenario itself: no deletes, one entry [a.txt] absent from
    the disk, the server holding bytes of the declared digest.  Both
    passes run; one request is made, one attempt and no download are
    reported, and [/eq/a.txt] is still absent: the verified bytes were
    dropped. *)
Theorem scenario_A_leaves_file_absent :
  let flist := Scenario.manifest [Scenario.a_good] in
  let passes := HandleDeleteRequests flist "/eq" >>
                HandleDownloadRequests Scenario.args flist "/eq" in
  let w' := world_of (passes Scenario.start) in
  file_at Scenario.start "/eq/a.txt" = None /\
  net Scenario.start "https://dl/a.txt" = Response 200 (bytes "abc") true /\
  md5OfData (bytes "abc") = MD5 Scenario.a_good /\
  value (passes Scenario.start) = Some tt /\
  requests w' = ["https://dl/a.txt"%string] /\
  reported_attempts w' = [1%nat] /\
  reported_downloads w' = [0%nat] /\
  file_at w' "/eq/a.txt" = None /\
  fs w' = fs Scenario.start.
Proof. cbv zeta. repeat split; vm_compute; reflexivity. Qed.

(* ================================================================== *)
(** ** Further properties *)
(* ================================================================== *)

(** *** The delete pass *)

(** [os.Remove] either fails and changes nothing, or takes one node, a
    file or a directory without children, out of the file system. *)
Lemma os_Remove_cases name w :
  (exists e, os_Remove name w = Done (Some e) w) \/
  (exists q n,
     locate w name = Ok q /\ lookup_node (fs w) q = Ok n /\
     (match n with Dir _ _ => has_child (fs w) q = false | File _ _ _ => True end) /\
     os_Remove name w = Done None (set_fs (delete q (fs w)) w)).
Proof.
  unfold os_Remove.
  destruct (locate w name) as [q|e]; [|eauto].
  destruct (lookup_node (fs w) q) as [n|e] eqn:Hn; [|eauto].
  destruct (parent_writable (fs w) q) as [[]|e]; [|eauto].
  destruct n as [m t d|m t].
  - right. exists q, (File m t d). auto.
  - destruct (has_child (fs w) q) eqn:Hc; [eauto|].
    right. exists q, (Dir m t). auto.
Qed.

(** The three ways through the loop body of [HandleDeleteRequests]. *)
Lemma delete_entry_cases rootPath count del w :
  let fullPath := filepath.Join rootPath (Name del) in
  (exists_at w fullPath = false /\ delete_entry rootPath count del w = Done count w) \/
  (exists e,
     exists_at w fullPath = true /\
     delete_entry rootPath count del w
     = Done count (add_event (PrintDeleteFailed e) (add_event (PrintDeleting (Name del)) w))) \/
  (exists q n,
     exists_at w fullPath = true /\
     locate w fullPath = Ok q /\ lookup_node (fs w) q = Ok n /\
     (match n with Dir _ _ => has_child (fs w) q = false | File _ _ _ => True end) /\
     delete_entry rootPath count del w
     = Done (S count) (set_fs (delete q (fs w)) (add_event (PrintDeleting (Name del)) w))).
Proof.
  intros fullPath. unfold exists_at, delete_entry, bind. fold fullPath.
  destruct (fileOrDirExists_pure fullPath w) as [b ->]. simpl.
  destruct b; [|left; auto]. right. unfold println.
  destruct (os_Remove_cases fullPath (add_event (PrintDeleting (Name del)) w))
    as [(e & ->)|(q & n & Hloc & Hn & Hleaf & ->)].
  - left. exists e. auto.
  - right. exists q, n. auto.
Qed.

Lemma delete_loop_accounting rootPath dels :
  forall c w0,
  exists c' w',
    delete_loop rootPath dels c w0 = Done c' w' /\
    (c <= c' <= c + length dels)%nat /\
    fs w' ⊆ fs w0 /\
    size (fs w0) = (size (fs w') + (c' - c))%nat /\
    requests w' = requests w0 /\
    same_setting w0 w'.
Proof.
  induction dels as [|del rest IH]; intros c w0.
  - exists c, w0. simpl. unfold ret. repeat split; auto; lia.
  - rewrite delete_loop_cons.
    destruct (delete_entry_cases rootPath c del w0)
      as [[_ ->]|[(e & _ & ->)|(q & n & _ & _ & Hn & _ & ->)]].
    + destruct (IH c w0) as (c' & w' & -> & Hc & Hsub & Hsize & Hreq & Hset).
      exists c', w'. simpl. repeat split; auto; try apply Hset; lia.
    + destruct (IH c (add_event (PrintDeleteFailed e)
                        (add_event (PrintDeleting (Name del)) w0)))
        as (c' & w' & -> & Hc & Hsub & Hsize & Hreq & Hset).
      exists c', w'. simpl in *. repeat split; auto; try apply Hset; lia.
    + destruct (IH (S c) (set_fs (delete q (fs w0))
                            (add_event (PrintDeleting (Name del)) w0)))
        as (c' & w' & -> & Hc & Hsub & Hsize & Hreq & Hset).
      apply lookup_node_Ok in Hn as [_ Hq].
      exists c', w'. simpl in *. repeat split; auto; try apply Hset; try lia.
      * etrans; [exact Hsub|apply delete_subseteq].
      * rewrite (map_size_delete_Some q (fs w0)) in Hsize by eauto.
        pose proof (map_size_ne_0_lookup_2 (fs w0) q) as Hpos.
        specialize (Hpos (ltac:(eauto))). lia.
Qed.

(** X1. The delete pass always runs to its end: it never stops the
    process and never talks to the network.  It only takes nodes away,
    one for each deletion it counts, and the number it prints is that
    count, at most the number of entries. *)
Theorem delete_pass_only_removes_what_it_counts
    (flist : fileListYaml) (rootPath : string) (w : World) :
  exists w' n,
    HandleDeleteRequests flist rootPath w = Done tt w' /\
    last (console w') = Some (PrintFilesDeleted n) /\
    (n <= length (Deletes flist))%nat /\
    fs w' ⊆ fs w /\
    size (fs w) = (size (fs w') + n)%nat /\
    requests w' = requests w.
Proof.
  unfold HandleDeleteRequests, bind, println.
  destruct (delete_loop_accounting rootPath (Deletes flist) 0%nat
              (add_event (PrintProcessingDeletes (length (Deletes flist))) w))
    as (n & w' & -> & Hc & Hsub & Hsize & Hreq & _).
  eexists _, n. split; [reflexivity|]. simpl in *.
  repeat split; auto using last_snoc; lia.
Qed.

(** Taking a node away cannot make a missing path appear. *)
Lemma traverse_delete (f : fsys) (q : list string) (todo seen : list string) :
  match traverse f seen todo with
  | Some ENOENT => traverse (delete q f) seen todo = Some ENOENT
  | None => traverse (delete q f) seen todo = None \/
            traverse (delete q f) seen todo = Some ENOENT
  | Some _ => True
  end.
Proof.
  revert seen. induction todo as [|c rest IH]; intros seen; simpl; [auto|].
  rewrite lookup_delete. destruct (decide (q = seen)) as [->|Hne].
  - destruct (f !! seen) as [[m t d|m t]|]; auto.
    destruct (p_exec m); auto.
    destruct (traverse f (seen ++ [c]) rest) as [[]|]; auto.
  - destruct (f !! seen) as [[m t d|m t]|]; auto.
    destruct (p_exec m); auto. apply IH.
Qed.

Lemma lookup_node_delete_gone (f : fsys) (q p : list string) :
  lookup_node f p = Err ENOENT -> lookup_node (delete q f) p = Err ENOENT.
Proof.
  unfold lookup_node. pose proof (traverse_delete f q p []) as H.
  destruct (traverse f [] p) as [e|].
  - intros [= ->]. rewrite H. reflexivity.
  - destruct (f !! p) eqn:Hp; [discriminate|]. intros _.
    destruct H as [-> | ->]; [|reflexivity].
    rewrite (proj2 (lookup_delete_None f q p)) by auto. reflexivity.
Qed.

Lemma lookup_node_delete_self (f : fsys) (p : list string) (n : node) :
  lookup_node f p = Ok n -> lookup_node (delete p f) p = Err ENOENT.
Proof.
  intros Hn. apply lookup_node_Ok in Hn as [Htr _].
  unfold lookup_node. pose proof (traverse_delete f p p []) as H. rewrite Htr in H.
  destruct H as [-> | ->]; [|reflexivity].
  rewrite lookup_delete_eq. reflexivity.
Qed.

Lemma exists_at_false w name :
  exists_at w name = false <->
  locate w name = Err ENOENT \/
  exists p, locate w name = Ok p /\ lookup_node (fs w) p = Err ENOENT.
Proof.
  unfold exists_at, fileOrDirExists, os_Stat, bind, ret, locate.
  destruct (decide (name = EmptyString)) as [Hempty|Hname]; [simpl; split; auto|].
  destruct (filepath.IsAbs name);
    match goal with |- context [lookup_node (fs w) ?p] =>
      destruct (lookup_node (fs w) p) as [nd|[]] eqn:Hnd
    end; simpl; split; intros H; try discriminate; eauto;
    destruct H as [[=]|(p & [= <-] & Hp)]; congruence.
Qed.

Lemma exists_at_false_delete w w' name q :
  cwd w' = cwd w -> fs w' = delete q (fs w) ->
  exists_at w name = false -> exists_at w' name = false.
Proof.
  intros Hcwd Hfs. rewrite !exists_at_false.
  replace (locate w' name) with (locate w name) by (unfold locate; rewrite Hcwd; reflexivity).
  rewrite Hfs. intros [H|(p & Hp & Hgone)]; [auto|].
  right. exists p. split; [exact Hp|]. apply lookup_node_delete_gone. exact Hgone.
Qed.

Lemma exists_at_same_disk w w' name :
  cwd w' = cwd w -> fs w' = fs w -> exists_at w' name = exists_at w name.
Proof.
  intros Hcwd Hfs.
  unfold exists_at, fileOrDirExists, os_Stat, bind, ret, locate. rewrite Hcwd, Hfs.
  repeat case_match; simplify_eq; try reflexivity; congruence.
Qed.

Lemma delete_failures_app out1 out2 :
  delete_failures (out1 ++ out2) = delete_failures out1 ++ delete_failures out2.
Proof. unfold delete_failures. apply omap_app. Qed.

(** What the delete loop does to the paths it is given. *)
Lemma delete_loop_gone rootPath dels :
  forall count w,
  exists count' w' out,
    delete_loop rootPath dels count w = Done count' w' /\
    console w' = console w ++ out /\
    cwd w' = cwd w /\
    (forall name, exists_at w name = false -> exists_at w' name = false) /\
    (delete_failures out = [] ->
     forall del, del ∈ dels -> exists_at w' (filepath.Join rootPath (Name del)) = false).
Proof.
  induction dels as [|del rest IH]; intros count w.
  - exists count, w, []. simpl. unfold ret. rewrite app_nil_r.
    repeat split; auto. intros _ d Hd. inversion Hd.
  - rewrite delete_loop_cons.
    destruct (delete_entry_cases rootPath count del w)
      as [[Hgone ->]|[(e & _ & ->)|(q & n & _ & Hloc & Hn & _ & ->)]].
    + destruct (IH count w) as (c' & w' & out & -> & Hout & Hcwd & Hkeep & Hall).
      exists c', w', out. repeat split; auto.
      intros Hno d Hd. apply elem_of_cons in Hd as [->|Hd]; auto.
    + destruct (IH count (add_event (PrintDeleteFailed e)
                            (add_event (PrintDeleting (Name del)) w)))
        as (c' & w' & out & -> & Hout & Hcwd & Hkeep & Hall).
      exists c', w', ([PrintDeleting (Name del); PrintDeleteFailed e] ++ out).
      simpl in *. repeat split; auto.
      * rewrite Hout, <- !app_assoc. reflexivity.
      * intros name Hname. apply Hkeep.
        rewrite <- Hname. apply exists_at_same_disk; reflexivity.
      * intros Hno. discriminate Hno.
    + destruct (IH (S count) (set_fs (delete q (fs w))
                                (add_event (PrintDeleting (Name del)) w)))
        as (c' & w' & out & -> & Hout & Hcwd & Hkeep & Hall).
      exists c', w', ([PrintDeleting (Name del)] ++ out).
      simpl in *. repeat split; auto.
      * rewrite Hout, <- !app_assoc. reflexivity.
      * intros name Hname. apply Hkeep.
        apply (exists_at_false_delete w _ name q); auto.
      * intros Hno d Hd. apply elem_of_cons in Hd as [->|Hd]; [|auto].
        apply Hkeep. apply exists_at_false. right. exists q. simpl.
        split; [exact Hloc|]. apply (lookup_node_delete_self _ _ n Hn).
Qed.

Lemma HandleDeleteRequests_gone
    (flist : fileListYaml) (rootPath : string) (w : World) (del : fileEntry) :
  let w' := world_of (HandleDeleteRequests flist rootPath w) in
  delete_failures (console w') = delete_failures (console w) ->
  del ∈ Deletes flist ->
  exists_at w' (filepath.Join rootPath (Name del)) = false.
Proof.
  intros w' Hno Hdel. subst w'.
  unfold HandleDeleteRequests, bind, println in *.
  destruct (delete_loop_gone rootPath (Deletes flist) 0%nat
              (add_event (PrintProcessingDeletes (length (Deletes flist))) w))
    as (c' & w1 & out & E & Hout & Hcwd & Hkeep & Hall).
  rewrite E in *. simpl in *.
  assert (Hnone : delete_failures out = []).
  { rewrite Hout in Hno. rewrite !delete_failures_app in Hno. simpl in Hno.
    rewrite !app_nil_r in Hno.
    rewrite <- (app_nil_r (delete_failures (console w))) in Hno at 2.
    apply app_inv_head in Hno. exact Hno. }
  rewrite <- (Hall Hnone del Hdel).
  apply exists_at_same_disk; reflexivity.
Qed.

(** X2. When the delete pass has printed no [Delete failed] line, none
    of the paths listed in [Deletes] exists afterwards, whether it was
    removed by the pass or was missing to begin with. *)
Theorem delete_pass_without_failures_leaves_nothing_listed
    (flist : fileListYaml) (rootPath : string) (w : World) (del : fileEntry) :
  let w' := world_of (HandleDeleteRequests flist rootPath w) in
  delete_failures (console w') = delete_failures (console w) ->
  del ∈ Deletes flist ->
  exists_at w' (filepath.Join rootPath (Name del)) = false.
Proof. exact (HandleDeleteRequests_gone flist rootPath w del). Qed.

Lemma delete_pass_without_failures_leaves_nothing_listed_witness :
  exists_at
    (world_of (HandleDeleteRequests (Cases.deleting [Scenario.a_good; Scenario.missing])
                 "/eq" (Scenario.installed Scenario.rw_ "abc")))
    (filepath.Join "/eq" (Name Scenario.a_good)) = false.
Proof.
  apply (delete_pass_without_failures_leaves_nothing_listed
           (Cases.deleting [Scenario.a_good; Scenario.missing]) "/eq"
           (Scenario.installed Scenario.rw_ "abc") Scenario.a_good).
  - vm_compute. reflexivity.
  - simpl. left.
Defined.

(** X3. Running the delete pass again after a run without failures
    finds nothing to do: it prints no [Deleting] line, reports no
    deletion and leaves the file system as the first run left it. *)
Theorem delete_pass_twice
    (flist : fileListYaml) (rootPath : string) (w : World) :
  let w1 := world_of (HandleDeleteRequests flist rootPath w) in
  let w2 := world_of (HandleDeleteRequests flist rootPath w1) in
  delete_failures (console w1) = delete_failures (console w) ->
  fs w2 = fs w1 /\
  console w2 = console w1 ++ [PrintProcessingDeletes (length (Deletes flist));
                              PrintFilesDeleted 0].
Proof.
  intros w1 w2 Hno.
  assert (Hgone : forall del, del ∈ Deletes flist ->
                   exists_at w1 (filepath.Join rootPath (Name del)) = false).
  { intros del Hdel.
    apply (HandleDeleteRequests_gone flist rootPath w del Hno Hdel). }
  assert (Hskip : forall dels c w0,
            (forall del, del ∈ dels ->
               exists_at w0 (filepath.Join rootPath (Name del)) = false) ->
            delete_loop rootPath dels c w0 = Done c w0).
  { induction dels as [|del rest IH]; intros c w0 Hall; [reflexivity|].
    rewrite delete_loop_cons.
    destruct (delete_entry_cases rootPath c del w0)
      as [[_ ->]|[(e & Hex & _)|(q & n & Hex & _)]].
    - apply IH. intros d Hd. apply Hall. right. exact Hd.
    - rewrite Hall in Hex by left. discriminate.
    - rewrite Hall in Hex by left. discriminate. }
  assert (E : HandleDeleteRequests flist rootPath w1
              = Done tt (add_event (PrintFilesDeleted 0)
                           (add_event (PrintProcessingDeletes (length (Deletes flist))) w1))).
  { unfold HandleDeleteRequests, bind, println. rewrite Hskip; [reflexivity|].
    intros del Hdel. rewrite <- (Hgone del Hdel).
    apply exists_at_same_disk; reflexivity. }
  subst w2. rewrite E. simpl. split; [reflexivity|].
  rewrite <- app_assoc. reflexivity.
Qed.

(** *** The download pass *)

Lemma only_files_written_refl (f : fsys) : only_files_written f f.
Proof. intros q. destruct (f !! q) as [[m t d|m t]|]; eauto. Qed.

Lemma only_files_written_trans (f1 f2 f3 : fsys) :
  only_files_written f1 f2 -> only_files_written f2 f3 -> only_files_written f1 f3.
Proof.
  intros H12 H23 q. specialize (H12 q). specialize (H23 q).
  destruct (f1 !! q) as [[m t d|m t]|].
  - destruct H12 as (t' & d' & E). rewrite E in H23. exact H23.
  - rewrite H12 in H23. exact H23.
  - destruct H12 as [E|(t' & d' & E)]; rewrite E in H23; auto.
Qed.

Lemma only_files_written_insert (f : fsys) p m t d :
  match f !! p with
  | Some (File m' _ _) => m = m'
  | Some (Dir _ _) => False
  | None => m = default_file_mode
  end ->
  only_files_written f (<[p := File m t d]> f).
Proof.
  intros Hp q. destruct (decide (p = q)) as [->|Hne].
  - rewrite lookup_insert_eq. destruct (f !! q) as [[m' t' d'|m' t']|]; subst; eauto.
    contradiction.
  - rewrite lookup_insert_ne by exact Hne.
    destruct (f !! q) as [[m' t' d'|m' t']|]; eauto.
Qed.

(** [writeFile] changes at most the node its name leads to, which it
    makes or keeps a regular file; an existing file keeps its mode. *)
Lemma writeFile_frame name data w :
  exists r f',
    writeFile name data w = Done r (set_fs f' w) /\
    only_files_written (fs w) f' /\
    (forall p q, locate w name = Ok p -> q ≠ p -> f' !! q = fs w !! q).
Proof.
  assert (Hid : w = set_fs (fs w) w) by (destruct w; reflexivity).
  assert (Hfail : forall e : error, exists (r : option error) f',
             Done (Some e) w = Done r (set_fs f' w) /\
             only_files_written (fs w) f' /\
             (forall p q, locate w name = Ok p -> q ≠ p -> f' !! q = fs w !! q)).
  { intros e. exists (Some e), (fs w). rewrite <- Hid.
    split; [reflexivity|]. split; [apply only_files_written_refl|]. auto. }
  unfold writeFile, bind, os_Create, ret.
  destruct (locate w name) as [p|e] eqn:Hloc; [|apply Hfail].
  destruct (traverse (fs w) [] p) as [e|]; [apply Hfail|].
  assert (Hwrite : forall m,
            match fs w !! p with
            | Some (File m' _ _) => m = m'
            | Some (Dir _ _) => False
            | None => m = default_file_mode
            end ->
            exists r f',
              file_Write p data (set_fs (<[p := File m (now w) []]> (fs w)) w)
                = Done r (set_fs f' w) /\
              only_files_written (fs w) f' /\
              (forall p0 q, @Ok (list string) p = Ok p0 -> q ≠ p0 -> f' !! q = fs w !! q)).
  { intros m Hm. unfold file_Write. simpl. rewrite lookup_insert_eq.
    destruct (storage w p data) as [|n e]; rewrite insert_insert_eq.
    - exists None, (<[p := File m (now w) data]> (fs w)).
      split; [reflexivity|].
      split; [apply only_files_written_insert; exact Hm|].
      intros p0 q [= <-] Hq. apply lookup_insert_ne. congruence.
    - exists (Some e), (<[p := File m (now w) (take n data)]> (fs w)).
      split; [reflexivity|].
      split; [apply only_files_written_insert; exact Hm|].
      intros p0 q [= <-] Hq. apply lookup_insert_ne. congruence. }
  destruct (fs w !! p) as [[m t d|m t]|] eqn:Hp.
  - destruct (p_write m); [|apply Hfail]. apply (Hwrite m). reflexivity.
  - apply Hfail.
  - destruct (parent_writable (fs w) p) as [[]|e]; [|apply Hfail].
    apply (Hwrite default_file_mode). reflexivity.
Qed.

(** X4. [writeFile] touches one node at most, the one its name leads to:
    every other node is as it was.  It never makes a directory and never
    replaces one, and a file it overwrites keeps its mode.  When it
    returns no error the file holds exactly [data]; when it returns one,
    either nothing has changed or the file is left holding the first
    bytes of [data], as many as [f.Write] got through. *)
Theorem writeFile_touches_only_its_target
    (fileName : string) (data : list byte) (w : World) :
  exists err w',
    writeFile fileName data w = Done err w' /\
    same_setting w w' /\
    requests w' = requests w /\ console w' = console w /\
    only_files_written (fs w) (fs w') /\
    (forall p q, locate w fileName = Ok p -> q ≠ p -> fs w' !! q = fs w !! q) /\
    (err = None -> file_at w' fileName = Some data) /\
    (err ≠ None ->
     fs w' = fs w \/ exists n, file_at w' fileName = Some (take n data)).
Proof.
  destruct (writeFile_frame fileName data w) as (r & f' & E & Honly & Hoff).
  destruct (writeFile_cases fileName data w) as (r0 & f0 & E0 & Hcases).
  rewrite E in E0. injection E0 as <- <-.
  exists r, (set_fs f' w). split; [exact E|].
  split; [repeat split|]. simpl. repeat split; auto.
  - intros ->. destruct Hcases as [[_ H]|(e & [=] & _)]. exact H.
  - intros Hr. destruct Hcases as [[-> _]|(e & _ & [->|Hshort])];
      [contradiction|left; reflexivity|right; exact Hshort].
Qed.

(** The local check reads the disk and nothing else. *)
Lemma check_local_same_disk arg fullPath dl w w' :
  fs w' = fs w -> cwd w' = cwd w ->
  value (check_local arg fullPath dl w') = value (check_local arg fullPath dl w).
Proof.
  destruct w, w'; simpl; intros -> ->.
  unfold check_local, fileOrDirExists, os_Stat, md5OfFile, os_Open, read_all,
    println, bind, ret, locate; simpl.
  repeat (case_match; simpl in *; simplify_eq); reflexivity.
Qed.

Lemma needDownload_same_disk arg rootPath dl w w' :
  fs w' = fs w -> cwd w' = cwd w ->
  needDownload arg rootPath dl w' = needDownload arg rootPath dl w.
Proof.
  intros Hfs Hcwd. unfold needDownload.
  rewrite (check_local_same_disk arg _ dl w w' Hfs Hcwd). reflexivity.
Qed.

(** A file holding bytes of another digest is not up to date. *)
Lemma check_local_mismatch arg fullPath dl w data :
  file_at w fullPath = Some data ->
  md5OfData data ≠ MD5 dl ->
  exists r w', check_local arg fullPath dl w = Done r w' /\ r ≠ Some false.
Proof.
  unfold file_at. intros Hfile Hmd5.
  destruct (locate w fullPath) as [p|] eqn:Hloc; [|discriminate].
  destruct (lookup_node (fs w) p) as [[m t d|]|] eqn:Hnode; try discriminate.
  injection Hfile as ->.
  unfold check_local, bind.
  rewrite (fileOrDirExists_found _ _ _ _ Hloc Hnode).
  rewrite (md5OfFile_found _ _ _ _ _ _ Hloc Hnode).
  destruct (p_read m).
  - destruct (decide (md5OfData data ≠ MD5 dl)) as [_|Heq]; [|contradiction].
    unfold ret. eauto.
  - unfold println, ret. eauto.
Qed.

(** The ways through the second half of the loop body. *)
Lemma download_cases flist fullPath count dl w :
  let url := file_url flist dl in
  let w1 := add_request url (add_event (PrintGet url) w) in
  (exists e,
     (e = ErrTransport \/ e = ErrUnexpectedEOF) /\
     download flist fullPath count dl w = Fatal e (add_event (LogFatal e) w1)) \/
  (exists code data,
     net w url = Response code data true /\ md5OfData data = MD5 dl /\
     download flist fullPath count dl w = Done count w1) \/
  (exists code data err f',
     net w url = Response code data true /\ md5OfData data ≠ MD5 dl /\
     writeFile fullPath data (add_event (PrintMD5Mismatch (md5OfData data) (MD5 dl)) w1)
       = Done err (set_fs f' (add_event (PrintMD5Mismatch (md5OfData data) (MD5 dl)) w1)) /\
     download flist fullPath count dl w
     = Done (S count)
         (match err with
          | Some e => add_event (LogError e)
          | None => fun w2 => w2
          end (set_fs f' (add_event (PrintMD5Mismatch (md5OfData data) (MD5 dl)) w1)))).
Proof.
  intros url w1. unfold download, bind, println, log_Fatal.
  fold (file_url flist dl). fold url. rewrite fetchUrl_unfold. simpl. fold w1.
  destruct (net w url) as [|code data [|]] eqn:Hnet.
  - left. exists ErrTransport. auto.
  - destruct (decide (md5OfData data ≠ MD5 dl)) as [Hne|Heq].
    + right. right.
      destruct (writeFile_frame fullPath data
                  (add_event (PrintMD5Mismatch (md5OfData data) (MD5 dl)) w1))
        as (err & f' & E & _).
      exists code, data, err, f'. rewrite E.
      split; [reflexivity|]. split; [exact Hne|]. split; [reflexivity|].
      destruct err; reflexivity.
    + right. left. exists code, data. split; [reflexivity|]. split; [|reflexivity].
      destruct (decide (md5OfData data = MD5 dl)); [assumption|contradiction].
  - left. exists ErrUnexpectedEOF. auto.
Qed.

(** X5. A fetch brings an entry up to date only by accident.  Take an
    entry that needs a fetch and run the loop body on it.  If the same
    local check, run again afterwards, finds the entry in order, then
    the server sent bytes of another digest, the write of them stopped
    short with an error that was logged, and the first bytes that did
    reach the file happen to have the declared digest.  In every other
    run the entry still needs a fetch: verified bytes are dropped, and
    bytes written in full are bytes of another digest. *)
Theorem fetched_entry_in_order_only_by_short_write
    (arg : Args) (flist : fileListYaml) (rootPath : string) (dl : fileEntry)
    (count count' : nat) (w w' : World) :
  needDownload arg rootPath dl w = Some true ->
  download_entry arg flist rootPath count dl w = Done count' w' ->
  needDownload arg rootPath dl w' = Some false ->
  exists code data e n,
    net w (file_url flist dl) = Response code data true /\
    md5OfData data ≠ MD5 dl /\
    last (console w') = Some (LogError e) /\
    file_at w' (filepath.Join rootPath (Name dl)) = Some (take n data) /\
    md5OfData (take n data) = MD5 dl.
Proof.
  intros Hneed Hrun Hafter.
  set (fullPath := filepath.Join rootPath (Name dl)) in *.
  assert (E : download_entry arg flist rootPath count dl w
              = download flist fullPath count dl w).
  { unfold download_entry, bind. rewrite (needDownload_true _ _ _ _ Hneed). reflexivity. }
  rewrite E in Hrun. clear E.
  destruct (download_cases flist fullPath count dl w)
    as [(e & _ & E)|[(code & data & _ & _ & E)|(code & data & err & f' & Hnet & Hne & Hw & E)]];
    rewrite E in Hrun; [discriminate| |]; injection Hrun as <- <-.
  - rewrite (needDownload_same_disk arg rootPath dl w) in Hafter by reflexivity.
    congruence.
  - match type of Hw with writeFile _ _ ?w2 = _ =>
      destruct (writeFile_cases fullPath data w2) as (r0 & f0 & E0 & Hcases);
      rewrite Hw in E0; injection E0 as <- <-
    end.
    destruct Hcases as [[-> Hfile]|(e & -> & [->|[n Hfile]])].
    + destruct (check_local_mismatch arg fullPath dl _ data Hfile Hne) as (r & w3 & Hr & Hnot).
      unfold needDownload in Hafter. fold fullPath in Hafter. rewrite Hr in Hafter.
      contradiction.
    + rewrite (needDownload_same_disk arg rootPath dl w) in Hafter by reflexivity.
      congruence.
    + exists code, data, e, n.
      split; [exact Hnet|]. split; [exact Hne|].
      split; [simpl; apply last_snoc|]. split; [exact Hfile|].
      destruct (decide (md5OfData (take n data) = MD5 dl)) as [Heq|Hdiff]; [exact Heq|].
      exfalso.
      destruct (check_local_mismatch arg fullPath dl _ (take n data) Hfile Hdiff)
        as (r & w3 & Hr & Hnot).
      rewrite (needDownload_same_disk arg rootPath dl
                 (set_fs f' (add_event (PrintMD5Mismatch (md5OfData data) (MD5 dl))
                               (add_request (file_url flist dl)
                                  (add_event (PrintGet (file_url flist dl)) w)))))
        in Hafter by reflexivity.
      unfold needDownload in Hafter. fold fullPath in Hafter. rewrite Hr in Hafter.
      contradiction.
Qed.

Lemma fetched_entry_in_order_only_by_short_write_witness :
  exists code data e n,
    net (Cases.full_disk Scenario.start)
        (file_url (Scenario.manifest [Scenario.a_bad]) Scenario.a_bad)
      = Response code data true /\
    md5OfData data ≠ MD5 Scenario.a_bad /\
    last (console (world_of (download_entry Scenario.args
                               (Scenario.manifest [Scenario.a_bad]) "/eq" 0
                               Scenario.a_bad (Cases.full_disk Scenario.start))))
      = Some (LogError e) /\
    file_at (world_of (download_entry Scenario.args
                         (Scenario.manifest [Scenario.a_bad]) "/eq" 0
                         Scenario.a_bad (Cases.full_disk Scenario.start)))
            (filepath.Join "/eq" (Name Scenario.a_bad))
      = Some (take n data) /\
    md5OfData (take n data) = MD5 Scenario.a_bad.
Proof.
  apply (fetched_entry_in_order_only_by_short_write Scenario.args
           (Scenario.manifest [Scenario.a_bad]) "/eq" Scenario.a_bad 0%nat 1%nat
           (Cases.full_disk Scenario.start)).
  - vm_compute. reflexivity.
  - vm_compute. reflexivity.
  - vm_compute. reflexivity.
Defined.

Lemma same_setting_refl w : same_setting w w.
Proof. repeat split. Qed.

Lemma same_setting_trans w1 w2 w3 :
  same_setting w1 w2 -> same_setting w2 w3 -> same_setting w1 w3.
Proof.
  unfold same_setting.
  intros (-> & -> & -> & -> & ->) (-> & -> & -> & -> & ->). auto.
Qed.

Lemma check_local_home arg fullPath dl w :
  home (world_of (check_local arg fullPath dl w)) = home w.
Proof.
  unfold check_local, fileOrDirExists, os_Stat, md5OfFile, os_Open, read_all,
    println, bind, ret.
  repeat (case_match; simpl in *; simplify_eq); reflexivity.
Qed.

Lemma check_local_storage arg fullPath dl w :
  storage (world_of (check_local arg fullPath dl w)) = storage w.
Proof.
  unfold check_local, fileOrDirExists, os_Stat, md5OfFile, os_Open, read_all,
    println, bind, ret.
  repeat (case_match; simpl in *; simplify_eq); reflexivity.
Qed.

(** One entry of the download pass: either nothing is fetched and the
    disk is left alone, or one request is made, to the entry's URL. *)
Lemma download_entry_cases arg flist rootPath count dl w :
  let o := download_entry arg flist rootPath count dl w in
  same_setting w (world_of o) /\
  only_files_written (fs w) (fs (world_of o)) /\
  ((o = Done count (world_of o) /\
    fs (world_of o) = fs w /\ requests (world_of o) = requests w) \/
   (requests (world_of o) = requests w ++ [file_url flist dl] /\
    match o with
    | Done c' _ => (count <= c' <= S count)%nat
    | Fatal e w' =>
      (e = ErrTransport \/ e = ErrUnexpectedEOF) /\
      last (console w') = Some (LogFatal e) /\ fs w' = fs w
    end)).
Proof.
  intros o. subst o. unfold download_entry, bind.
  set (fullPath := filepath.Join rootPath (Name dl)).
  pose proof (check_local_home arg fullPath dl w) as Hhome.
  pose proof (check_local_storage arg fullPath dl w) as Hstorage.
  destruct (check_local_frame arg fullPath dl w)
    as (r & w0 & E & Hfs & Hreq & Hnet & Hcwd & Hnow & Htrue & _).
  rewrite E in Hhome, Hstorage |- *. simpl in Hhome, Hstorage.
  destruct r as [[|]|].
  - rewrite (Htrue eq_refl).
    destruct (download_cases flist fullPath count dl w)
      as [(e & He & ->)|[(code & data & _ & _ & ->)
                        |(code & data & err & f' & _ & _ & Hw & ->)]]; simpl.
    + split; [repeat split|]. split; [apply only_files_written_refl|].
      right. split; [reflexivity|]. split; [exact He|]. split; [apply last_snoc|reflexivity].
    + split; [repeat split|]. split; [apply only_files_written_refl|].
      right. split; [reflexivity|]. lia.
    + match type of Hw with writeFile _ _ ?w2 = _ =>
        destruct (writeFile_frame fullPath data w2) as (r0 & f0 & E0 & Honly & _);
        rewrite Hw in E0; injection E0 as <- <-
      end.
      destruct err; simpl; (split; [repeat split|]); (split; [exact Honly|]);
        right; (split; [reflexivity|lia]).
  - simpl. split; [repeat split; assumption|].
    split; [rewrite Hfs; apply only_files_written_refl|]. left. auto.
  - simpl. split; [repeat split; assumption|].
    split; [rewrite Hfs; apply only_files_written_refl|]. left. auto.
Qed.

Lemma download_loop_accounting arg flist rootPath dls :
  forall count w,
  let o := download_loop arg flist rootPath dls count w in
  exists fetched,
    fetched `sublist_of` dls /\
    requests (world_of o) = requests w ++ (file_url flist <$> fetched) /\
    same_setting w (world_of o) /\
    only_files_written (fs w) (fs (world_of o)) /\
    match o with
    | Done c' _ => (count <= c' <= count + length fetched)%nat
    | Fatal e w' =>
      (e = ErrTransport \/ e = ErrUnexpectedEOF) /\ last (console w') = Some (LogFatal e)
    end.
Proof.
  induction dls as [|dl rest IH]; intros count w o; subst o.
  - exists []. simpl. rewrite app_nil_r.
    split; [constructor|]. split; [reflexivity|]. split; [apply same_setting_refl|].
    split; [apply only_files_written_refl|]. lia.
  - rewrite download_loop_cons.
    destruct (download_entry_cases arg flist rootPath count dl w)
      as (Hset & Honly & Hcase).
    destruct (download_entry arg flist rootPath count dl w) as [c1 w1|e w1] eqn:E;
      simpl in *.
    + destruct (IH c1 w1) as (fetched & Hsub & Hreq & Hset' & Honly' & Hres).
      destruct Hcase as [([= <-] & _ & Hreq1)|(Hreq1 & Hc)].
      * exists fetched. split; [apply sublist_cons; exact Hsub|].
        split; [rewrite Hreq, Hreq1; reflexivity|].
        split; [eapply same_setting_trans; eassumption|].
        split; [eapply only_files_written_trans; eassumption|]. exact Hres.
      * exists (dl :: fetched). split; [apply sublist_skip; exact Hsub|].
        split; [rewrite Hreq, Hreq1, <- app_assoc; reflexivity|].
        split; [eapply same_setting_trans; eassumption|].
        split; [eapply only_files_written_trans; eassumption|].
        destruct (download_loop arg flist rootPath rest c1 w1); simpl; [lia|exact Hres].
    + destruct Hcase as [([=] & _)|(Hreq1 & He & Hlast & _)].
      exists [dl]. split; [apply sublist_skip, sublist_nil_l|].
      split; [exact Hreq1|]. split; [exact Hset|]. split; [exact Honly|]. auto.
Qed.

(** X6. The books of the download pass.  The requests it makes go to
    [DownloadPrefix + Name] of entries of [Downloads], each entry at most
    once and in manifest order.  Directories, the modes of existing files,
    the working directory, the clock and the server are left as they
    were: all that can change on the disk is the content of regular
    files.  When the pass ends, the number it prints is at most the
    number of requests; when it stops the process, the error is a failed
    fetch, never a local one. *)
Theorem download_pass_accounting
    (arg : Args) (flist : fileListYaml) (rootPath : string) (w : World) :
  let o := HandleDownloadRequests arg flist rootPath w in
  exists fetched,
    fetched `sublist_of` Downloads flist /\
    requests (world_of o) = requests w ++ (file_url flist <$> fetched) /\
    same_setting w (world_of o) /\
    only_files_written (fs w) (fs (world_of o)) /\
    match o with
    | Done _ w' =>
      exists n, last (console w') = Some (PrintFilesDownloaded n) /\
                (n <= length fetched)%nat
    | Fatal e w' =>
      (e = ErrTransport \/ e = ErrUnexpectedEOF) /\ last (console w') = Some (LogFatal e)
    end.
Proof.
  intros o. subst o. unfold HandleDownloadRequests, bind, println.
  destruct (download_loop_accounting arg flist rootPath (Downloads flist) 0%nat
              (add_event (PrintProcessingDownloads (length (Downloads flist))) w))
    as (fetched & Hsub & Hreq & Hset & Honly & Hres).
  exists fetched.
  destruct (download_loop arg flist rootPath (Downloads flist) 0
              (add_event (PrintProcessingDownloads (length (Downloads flist))) w))
    as [n w'|e w']; simpl in *.
  - repeat split; auto; try apply Hset.
    exists n. split; [apply last_snoc|lia].
  - repeat split; auto; apply Hset || apply Hres.
Qed.

(** *** Digests *)

Lemma le_bytes_length n x : length (Md5.le_bytes n x) = n.
Proof. revert x. induction n as [|n IH]; intros x; simpl; [reflexivity|]. rewrite IH. reflexivity. Qed.

Lemma le_bytes_range n x : Forall (fun b => 0 <= b < 256) (Md5.le_bytes n x).
Proof.
  revert x. induction n as [|n IH]; intros x; simpl; constructor; [|apply IH].
  apply Z.mod_pos_bound. lia.
Qed.

Lemma Sum_length data : length (Md5.Sum data) = 16%nat.
Proof. unfold Md5.Sum. rewrite !length_app, !le_bytes_length. reflexivity. Qed.

Lemma Sum_range data : Forall (fun b => 0 <= b < 256) (Md5.Sum data).
Proof. unfold Md5.Sum. repeat apply Forall_app_2; apply le_bytes_range. Qed.

Lemma hex_digit_ok d :
  0 <= d < 16 ->
  existsb (Ascii.eqb (Md5.hex_digit d)) (list_ascii_of_string "0123456789abcdef") = true.
Proof.
  intros Hd. assert (H : exists k, (k < 16)%nat /\ d = Z.of_nat k).
  { exists (Z.to_nat d). lia. }
  destruct H as (k & Hk & ->).
  do 16 (destruct k as [|k]; [reflexivity|]). lia.
Qed.

Lemma hex_shape bs :
  Forall (fun b => 0 <= b < 256) bs ->
  String.length (Md5.hex bs) = (2 * length bs)%nat /\
  forallb (fun c => existsb (Ascii.eqb c) (list_ascii_of_string "0123456789abcdef"))
          (list_ascii_of_string (Md5.hex bs)) = true.
Proof.
  set (P := fun c => existsb (Ascii.eqb c) (list_ascii_of_string "0123456789abcdef")).
  induction 1 as [|b bs Hb _ [IHlen IHall]]; [split; reflexivity|].
  split.
  - change (S (S (String.length (Md5.hex bs))) = (2 * S (length bs))%nat).
    rewrite IHlen. lia.
  - change (P (Md5.hex_digit (b / 16)) &&
            (P (Md5.hex_digit (b mod 16)) &&
             forallb P (list_ascii_of_string (Md5.hex bs))) = true).
    rewrite IHall. unfold P. rewrite !hex_digit_ok; [reflexivity| |].
    + apply Z.mod_pos_bound. lia.
    + split; [apply Z.div_pos; lia|apply Z.div_lt_upper_bound; lia].
Qed.

Lemma md5OfData_shape (data : list byte) : is_md5_hex (md5OfData data) = true.
Proof.
  unfold is_md5_hex, md5OfData.
  destruct (hex_shape (Md5.Sum data) (Sum_range data)) as [Hlen Hall].
  rewrite Hlen, Sum_length, Hall. reflexivity.
Qed.

(** X7. [md5OfData] always prints thirty-two characters, each a digit
    or a lower-case letter from [a] to [f], whatever the bytes. *)
Theorem md5OfData_is_32_lowercase_hex (data : list byte) :
  String.length (md5OfData data) = 32%nat /\
  forall c, In c (list_ascii_of_string (md5OfData data)) ->
            In c (list_ascii_of_string "0123456789abcdef").
Proof.
  pose proof (md5OfData_shape data) as H. unfold is_md5_hex in H.
  apply andb_prop in H as [Hlen Hall]. split.
  - apply Nat.eqb_eq. exact Hlen.
  - intros c Hc. rewrite forallb_forall in Hall. specialize (Hall c Hc).
    apply existsb_exists in Hall as (d & Hd & E).
    apply Ascii.eqb_eq in E. subst d. exact Hd.
Qed.

(** What [md5OfFile] returns, when it returns a digest, is what
    [md5OfData] makes of the content of the file. *)
Lemma md5OfFile_Ok name w h :
  value (md5OfFile name w) = Some (Ok h) ->
  exists data, file_at w name = Some data /\ h = md5OfData data.
Proof.
  unfold md5OfFile, os_Open, read_all, file_at, bind, ret.
  destruct (locate w name) as [p|e]; [|discriminate].
  destruct (lookup_node (fs w) p) as [[m t d|m t]|e] eqn:Hn; try discriminate;
    apply lookup_node_Ok in Hn as [_ Hp];
    destruct (p_read m); try discriminate; cbv beta iota; rewrite Hp; simpl;
    intros [= <-]; eauto.
Qed.

Lemma check_local_up_to_date_inv arg fullPath dl w :
  value (check_local arg fullPath dl w) = Some (Some false) ->
  exists data, file_at w fullPath = Some data /\ md5OfData data = MD5 dl.
Proof.
  unfold check_local, bind.
  destruct (fileOrDirExists_pure fullPath w) as [b ->].
  destruct b; [|discriminate].
  destruct (md5OfFile_pure fullPath w) as [[h|e] E]; rewrite E.
  - destruct (decide (h ≠ MD5 dl)) as [|Heq]; [discriminate|].
    intros _. destruct (md5OfFile_Ok fullPath w h) as (data & Hfile & ->).
    + rewrite E. reflexivity.
    + exists data. split; [exact Hfile|].
      destruct (decide (md5OfData data = MD5 dl)); [assumption|contradiction].
  - discriminate.
Qed.

(** X8. The comparison of digests is a comparison of strings.  An
    entry whose [MD5] is not thirty-two lower-case hexadecimal characters
    (too short, empty, in capitals) is never found up to date, and no
    bytes fetched for it ever verify: each run fetches it again, writes
    what it gets and counts it. *)
Theorem malformed_digest_never_matches
    (arg : Args) (rootPath : string) (dl : fileEntry) (w : World) :
  is_md5_hex (MD5 dl) = false ->
  needDownload arg rootPath dl w ≠ Some false /\
  forall data, md5OfData data ≠ MD5 dl.
Proof.
  intros Hbad.
  assert (Hnever : forall data, md5OfData data ≠ MD5 dl).
  { intros data E. pose proof (md5OfData_shape data) as H.
    rewrite E in H. congruence. }
  split; [|exact Hnever].
  unfold needDownload. intros H.
  destruct (check_local_up_to_date_inv arg (filepath.Join rootPath (Name dl)) dl w)
    as (data & _ & E).
  - destruct (value (check_local arg (filepath.Join rootPath (Name dl)) dl w));
      [subst; reflexivity|discriminate].
  - exact (Hnever data E).
Qed.

Lemma malformed_digest_never_matches_witness :
  needDownload Scenario.args "/eq" Cases.a_capitals (Scenario.installed Scenario.rw_ "abc")
    ≠ Some false /\
  forall data, md5OfData data ≠ MD5 Cases.a_capitals.
Proof.
  apply (malformed_digest_never_matches Scenario.args "/eq" Cases.a_capitals
           (Scenario.installed Scenario.rw_ "abc")).
  vm_compute. reflexivity.
Defined.

(** *** Resolution of the manifest, and [main] *)

Lemma cache_invalid_pure fullPath w :
  exists b, cache_invalid fullPath w = Done b w.
Proof.
  destruct (os_Stat_pure fullPath w) as [st Hst].
  rewrite (cache_invalid_unfold fullPath w st Hst). eauto.
Qed.

Lemma cache_invalid_add_event fullPath ev w b :
  cache_invalid fullPath w = Done b w ->
  cache_invalid fullPath (add_event ev w) = Done b (add_event ev w).
Proof.
  destruct (os_Stat_pure fullPath w) as [st Hst].
  rewrite (cache_invalid_unfold fullPath w st Hst).
  rewrite (cache_invalid_unfold fullPath (add_event ev w) st (os_Stat_add_event _ _ _ _ Hst)).
  intros [= <-]. reflexivity.
Qed.

(** [DownloadFileList], step by step: what it returns and the world it
    leaves, from whether the cache is found invalid. *)
Lemma DownloadFileList_unfold yaml arg clientName expansion w b :
  value (cache_invalid (cache_path arg w) w) = Some b ->
  let w1 := add_event (PrintFilelistURL (filelistURL arg)) w in
  DownloadFileList yaml arg clientName expansion w =
  if b then
    match refresh arg (cache_path arg w) w1 with
    | Done (Some e) w2 => Done (Err e) w2
    | Done None w2 =>
      match os_ReadFile (filelistName arg) w2 with
      | Done (Ok data) w3 => Done (yaml data) w3
      | Done (Err e) w3 => Done (Err e) w3
      | Fatal e w3 => Fatal e w3
      end
    | Fatal e w2 => Fatal e w2
    end
  else
    match os_ReadFile (filelistName arg) w1 with
    | Done (Ok data) w3 => Done (yaml data) w3
    | Done (Err e) w3 => Done (Err e) w3
    | Fatal e w3 => Fatal e w3
    end.
Proof.
  intros Hb w1.
  apply value_pure in Hb; [|apply cache_invalid_pure].
  unfold DownloadFileList, bind. rewrite filelistFullPath_pure. unfold println.
  rewrite (cache_invalid_add_event _ (PrintFilelistURL (filelistURL arg)) _ _ Hb).
  fold w1. destruct b.
  - destruct (refresh arg (cache_path arg w) w1) as [[e|] w2|e w2]; try reflexivity.
    destruct (os_ReadFile (filelistName arg) w2) as [[data|e] w3|e w3]; reflexivity.
  - unfold ret at 1.
    destruct (os_ReadFile (filelistName arg) w1) as [[data|e] w3|e w3]; reflexivity.
Qed.

(** X9. An old cache is no fallback.  When the cache is found invalid
    and the manifest cannot be fetched, resolution returns the fetch
    error without reading what is cached, and [main] stops there: the
    disk is as it was, one request was made, no pass has started. *)
Theorem stale_cache_is_no_fallback
    (yaml : list byte -> result fileListYaml) (arg : Args) (w : World) (e : error) :
  value (cache_invalid (cache_path arg w) w) = Some true ->
  value (fetchUrl (filelistURL arg) w) = Some (Err e) ->
  let stopped :=
    add_request (filelistURL arg)
      (add_event (PrintGetFilelist (filelistURL arg))
         (add_event (PrintFilelistURL (filelistURL arg)) w)) in
  DownloadFileList yaml arg (Client arg) (Expansion arg) w = Done (Err e) stopped /\
  main yaml arg w = Fatal e (add_event (LogFatal e) stopped) /\
  fs stopped = fs w.
Proof.
  intros Hinv Hfetch stopped.
  assert (E : DownloadFileList yaml arg (Client arg) (Expansion arg) w
              = Done (Err e) stopped).
  { rewrite (DownloadFileList_unfold yaml arg _ _ w true Hinv). cbv zeta.
    unfold refresh, bind, println. rewrite fetchUrl_unfold in Hfetch |- *.
    simpl in *. destruct (net w (filelistURL arg)) as [|code body [|]];
      try discriminate Hfetch; injection Hfetch as <-; reflexivity. }
  split; [exact E|]. split; [|reflexivity].
  unfold main, bind. rewrite E. reflexivity.
Qed.

Lemma stale_cache_is_no_fallback_witness :
  let w := Cases.offline
             (Scenario.with_cache Scenario.rwx (92 * day) "/home/u/.config/fvpatcher") in
  let stopped :=
    add_request Scenario.manifest_url
      (add_event (PrintGetFilelist Scenario.manifest_url)
         (add_event (PrintFilelistURL Scenario.manifest_url) w)) in
  DownloadFileList (Cases.any_yaml []) Scenario.args "rof" "original" w
    = Done (Err ErrTransport) stopped /\
  main (Cases.any_yaml []) Scenario.args w
    = Fatal ErrTransport (add_event (LogFatal ErrTransport) stopped) /\
  fs stopped = fs w.
Proof.
  apply (stale_cache_is_no_fallback (Cases.any_yaml []) Scenario.args
           (Cases.offline
              (Scenario.with_cache Scenario.rwx (92 * day) "/home/u/.config/fvpatcher"))
           ErrTransport).
  - vm_compute. reflexivity.
  - vm_compute. reflexivity.
Defined.

(** X10. A cache found valid is only read.  Resolution then prints one
    line, makes no request and leaves the disk alone; what it returns is
    the decoding of the file [os.ReadFile] finds under the cache's file
    name, or the error of that read. *)
Theorem valid_cache_is_only_read
    (yaml : list byte -> result fileListYaml) (arg : Args)
    (clientName expansion : string) (w : World) :
  value (cache_invalid (cache_path arg w) w) = Some false ->
  exists r,
    DownloadFileList yaml arg clientName expansion w
      = Done r (add_event (PrintFilelistURL (filelistURL arg)) w) /\
    r = match value (os_ReadFile (filelistName arg) w) with
        | Some (Ok data) => yaml data
        | Some (Err e) => Err e
        | None => Err ENOENT
        end.
Proof.
  intros Hvalid.
  rewrite (DownloadFileList_unfold yaml arg _ _ w false Hvalid). cbv zeta.
  set (w1 := add_event (PrintFilelistURL (filelistURL arg)) w).
  assert (Hread : value (os_ReadFile (filelistName arg) w1)
                  = value (os_ReadFile (filelistName arg) w)).
  { unfold os_ReadFile, os_Open, read_all, bind, ret. subst w1.
    replace (locate (add_event _ w) (filelistName arg))
      with (locate w (filelistName arg)) by reflexivity.
    replace (fs (add_event (PrintFilelistURL (filelistURL arg)) w)) with (fs w) by reflexivity.
    repeat (case_match; simpl in *; simplify_eq); reflexivity. }
  destruct (os_ReadFile_pure (filelistName arg) w1) as [rd E]. rewrite E in Hread |- *.
  simpl in Hread. rewrite <- Hread.
  destruct rd; eauto.
Qed.

Lemma valid_cache_is_only_read_witness :
  let w := Scenario.with_cache Scenario.rwx (99 * day) "/home/u/.config/fvpatcher" in
  exists r,
    DownloadFileList (Cases.any_yaml []) Scenario.args "rof" "original" w
      = Done r (add_event (PrintFilelistURL (filelistURL Scenario.args)) w) /\
    r = match value (os_ReadFile (filelistName Scenario.args) w) with
        | Some (Ok data) => Cases.any_yaml [] data
        | Some (Err e) => Err e
        | None => Err ENOENT
        end.
Proof.
  apply (valid_cache_is_only_read (Cases.any_yaml []) Scenario.args "rof" "original"
           (Scenario.with_cache Scenario.rwx (99 * day) "/home/u/.config/fvpatcher")).
  vm_compute. reflexivity.
Defined.

(** X11. A refresh that lets resolution succeed has stored what it
    fetched: when the cache was found invalid and resolution returns a
    manifest, the cache path holds exactly the bytes the server sent,
    and one request was made. *)
Theorem refreshed_cache_holds_the_fetched_bytes
    (yaml : list byte -> result fileListYaml) (arg : Args)
    (clientName expansion : string) (w w' : World)
    (code : nat) (body : list byte) (flist : fileListYaml) :
  value (cache_invalid (cache_path arg w) w) = Some true ->
  net w (filelistURL arg) = Response code body true ->
  DownloadFileList yaml arg clientName expansion w = Done (Ok flist) w' ->
  file_at w' (cache_path arg w) = Some body /\
  requests w' = requests w ++ [filelistURL arg].
Proof.
  intros Hinv Hnet.
  rewrite (DownloadFileList_unfold yaml arg _ _ w true Hinv). cbv zeta.
  unfold refresh, bind, println. rewrite fetchUrl_unfold. simpl. rewrite Hnet.
  match goal with |- context [getSettingsRoot ?w1] =>
    destruct (getSettingsRoot_pure w1) as [root ->];
    destruct (os_MkdirAll_frame root w1) as (r & f1 & ->)
  end.
  destruct r as [e|]; [discriminate|].
  match goal with |- context [writeFile ?p body ?w2] =>
    destruct (writeFile_cases p body w2) as (r & f2 & -> & Hcases)
  end.
  destruct Hcases as [[-> Hfile]|(e & -> & _)]; [|discriminate].
  match goal with |- context [os_ReadFile ?n ?w3] =>
    destruct (os_ReadFile_pure n w3) as [rd ->]
  end.
  destruct rd as [data|e]; [|discriminate].
  intros [= _ <-]. split; [exact Hfile|reflexivity].
Qed.

Lemma refreshed_cache_holds_the_fetched_bytes_witness :
  let w := Scenario.with_cache Scenario.rwx (92 * day) "/home/u/.config/fvpatcher" in
  let w' := world_of (DownloadFileList (Cases.any_yaml []) Scenario.args "rof" "original" w) in
  file_at w' (cache_path Scenario.args w) = Some (bytes "manifest") /\
  requests w' = requests w ++ [filelistURL Scenario.args].
Proof.
  apply (refreshed_cache_holds_the_fetched_bytes (Cases.any_yaml []) Scenario.args
           "rof" "original"
           (Scenario.with_cache Scenario.rwx (92 * day) "/home/u/.config/fvpatcher")
           _ 200%nat (bytes "manifest") (mkList "1" [] "https://dl/" [])).
  - vm_compute. reflexivity.
  - vm_compute. reflexivity.
  - vm_compute. reflexivity.
Defined.

Lemma DownloadFileList_Done yaml arg clientName expansion w :
  exists r w', DownloadFileList yaml arg clientName expansion w = Done r w'.
Proof.
  destruct (cache_invalid_pure (cache_path arg w) w) as [b Hb].
  rewrite (DownloadFileList_unfold yaml arg _ _ w b) by (rewrite Hb; reflexivity).
  cbv zeta. destruct b.
  - match goal with |- context [refresh arg ?p ?w1] =>
      destruct (refresh_requests arg p w1) as (r & w2 & -> & _)
    end.
    destruct r; [eauto|].
    destruct (os_ReadFile_pure (filelistName arg) w2) as [rd ->]. destruct rd; eauto.
  - match goal with |- context [os_ReadFile ?n ?w1] =>
      destruct (os_ReadFile_pure n w1) as [rd ->]
    end.
    destruct rd; eauto.
Qed.

(** X12. How [main] ends.  It stops the process in two cases only:
    resolution of the manifest returned an error, or a fetch of the
    download pass failed; the last line printed is then that error.
    Removals, hashes and writes that fail never stop it: in every other
    case both passes run to their end and the last line printed is the
    number of downloads. *)
Theorem main_exit_behaviour
    (yaml : list byte -> result fileListYaml) (arg : Args) (w : World) :
  let resolved := value (DownloadFileList yaml arg (Client arg) (Expansion arg) w) in
  match main yaml arg w with
  | Done _ w' =>
    exists flist n,
      resolved = Some (Ok flist) /\ last (console w') = Some (PrintFilesDownloaded n)
  | Fatal e w' =>
    last (console w') = Some (LogFatal e) /\
    (resolved = Some (Err e) \/
     exists flist,
       resolved = Some (Ok flist) /\ (e = ErrTransport \/ e = ErrUnexpectedEOF))
  end.
Proof.
  intros resolved. subst resolved. unfold main, bind.
  destruct (DownloadFileList_Done yaml arg (Client arg) (Expansion arg) w) as (r & w1 & ->).
  cbv beta iota. destruct r as [flist|e].
  - unfold HandleDeleteRequests, HandleDownloadRequests, println, bind.
    match goal with |- context [delete_loop ?root ?dels ?c ?w2] =>
      destruct (delete_loop_accounting root dels c w2) as (c' & w3 & -> & _)
    end.
    cbv beta iota.
    match goal with |- context [download_loop arg flist ?root ?dls ?c ?w4] =>
      destruct (download_loop_accounting arg flist root dls c w4)
        as (fetched & _ & _ & _ & _ & Hres);
      destruct (download_loop arg flist root dls c w4) as [n w5|e w5]
    end.
    + exists flist, n. split; [reflexivity|]. apply last_snoc.
    + destruct Hres as [He Hlast]. split; [exact Hlast|]. right. eauto.
  - unfold log_Fatal. split; [apply last_snoc|]. left. reflexivity.
Qed.

(** *** The flag [Verbose] *)

Lemma quiet_snoc out ev :
  quiet (out ++ [ev]) = if is_ok_line ev then quiet out else quiet out ++ [ev].
Proof.
  unfold quiet. rewrite filter_app. destruct ev; simpl; rewrite ?app_nil_r; reflexivity.
Qed.

Lemma same_but_ok_lines_event ev w w' :
  same_but_ok_lines w w' -> same_but_ok_lines (add_event ev w) (add_event ev w').
Proof.
  intros (Hfs & Hset & Hreq & Hq). unfold same_but_ok_lines, same_setting in *. simpl.
  rewrite !quiet_snoc, Hq. destruct (is_ok_line ev); tauto.
Qed.

Lemma same_but_ok_lines_ok name w w' :
  same_but_ok_lines w w' -> same_but_ok_lines w (add_event (PrintOK name) w').
Proof.
  intros (Hfs & Hset & Hreq & Hq). unfold same_but_ok_lines, same_setting in *. simpl.
  rewrite quiet_snoc. simpl. tauto.
Qed.

Lemma same_but_ok_lines_sym w w' : same_but_ok_lines w w' -> same_but_ok_lines w' w.
Proof.
  unfold same_but_ok_lines, same_setting.
  intros (H1 & (H2 & H3 & H4 & H5 & H5') & H6 & H7). repeat split; congruence.
Qed.

(** The local check of two runs that differ in [Verbose]. *)
Lemma check_local_verbose arg arg' fullPath dl w w' :
  same_but_ok_lines w w' ->
  same_outcome_but_ok_lines (check_local arg fullPath dl w) (check_local arg' fullPath dl w').
Proof.
  intros Hsame.
  assert (Hfs : fs w' = fs w) by apply Hsame.
  assert (Hcwd : cwd w' = cwd w) by apply Hsame.
  unfold check_local, bind.
  destruct (fileOrDirExists_pure fullPath w) as [b E].
  destruct (fileOrDirExists_pure fullPath w') as [b' E'].
  assert (b' = b) as ->.
  { pose proof (exists_at_same_disk w w' fullPath Hcwd Hfs) as H.
    unfold exists_at in H. rewrite E, E' in H. exact H. }
  rewrite E, E'. destruct b; [|simpl; auto].
  destruct (md5OfFile_pure fullPath w) as [r Er].
  destruct (md5OfFile_pure fullPath w') as [r' Er'].
  assert (r' = r) as ->.
  { assert (H : value (md5OfFile fullPath w') = value (md5OfFile fullPath w)).
    { clear -Hfs Hcwd. destruct w, w'; simpl in *; subst.
      unfold md5OfFile, os_Open, read_all, bind, ret, locate; simpl.
      repeat (case_match; simpl in *; simplify_eq); reflexivity. }
    rewrite Er, Er' in H. simpl in H. congruence. }
  rewrite Er, Er'. destruct r as [h|e].
  - destruct (decide (h ≠ MD5 dl)); [simpl; auto|].
    destruct (Verbose arg), (Verbose arg'); unfold println, bind, ret; simpl;
      (split; [reflexivity|]).
    + apply same_but_ok_lines_event. exact Hsame.
    + apply same_but_ok_lines_sym, same_but_ok_lines_ok, same_but_ok_lines_sym. exact Hsame.
    + apply same_but_ok_lines_ok. exact Hsame.
    + exact Hsame.
  - unfold println, bind, ret. simpl. split; [reflexivity|].
    apply same_but_ok_lines_event. exact Hsame.
Qed.

Lemma writeFile_verbose name data w w' :
  same_but_ok_lines w w' ->
  same_outcome_but_ok_lines (writeFile name data w) (writeFile name data w').
Proof.
  intros (Hfs & (Hcwd & Hhome & Hnow & Hnet & Hstorage) & Hreq & Hq).
  destruct w, w'; simpl in *; subst.
  unfold writeFile, os_Create, file_Write, bind, ret, locate; simpl.
  repeat (case_match; simpl in *; simplify_eq);
    repeat split; simpl; auto.
Qed.

Lemma download_verbose flist fullPath count dl w w' :
  same_but_ok_lines w w' ->
  same_outcome_but_ok_lines (download flist fullPath count dl w)
                            (download flist fullPath count dl w').
Proof.
  intros Hsame.
  assert (Hnet : net w' = net w) by apply Hsame.
  set (url := (DownloadPrefix flist +:+ Name dl)%string).
  assert (H1 : same_but_ok_lines (add_request url (add_event (PrintGet url) w))
                                 (add_request url (add_event (PrintGet url) w'))).
  { apply (same_but_ok_lines_event (PrintGet url)) in Hsame.
    destruct Hsame as (Hfs & Hset & Hreq & Hq).
    unfold same_but_ok_lines, same_setting in *. simpl in *. rewrite Hreq. tauto. }
  unfold download, bind, println, log_Fatal. fold url.
  rewrite !fetchUrl_unfold. simpl. rewrite Hnet.
  destruct (net w url) as [|code body [|]].
  - simpl. split; [reflexivity|]. apply same_but_ok_lines_event. exact H1.
  - destruct (decide (md5OfData body ≠ MD5 dl)); [|simpl; auto].
    pose proof (writeFile_verbose fullPath body _ _
                  (same_but_ok_lines_event
                     (PrintMD5Mismatch (md5OfData body) (MD5 dl)) _ _ H1)) as Hw.
    unfold same_outcome_but_ok_lines in Hw.
    destruct (writeFile fullPath body _) as [r1 w1|e1 w1];
      destruct (writeFile fullPath body _) as [r2 w2|e2 w2]; try contradiction.
    + destruct Hw as [<- Hw]. destruct r1; unfold ret; simpl; (split; [reflexivity|]).
      * apply same_but_ok_lines_event. exact Hw.
      * exact Hw.
    + exact Hw.
  - simpl. split; [reflexivity|]. apply same_but_ok_lines_event. exact H1.
Qed.

Lemma download_loop_verbose arg arg' flist rootPath dls :
  forall count w w',
  same_but_ok_lines w w' ->
  same_outcome_but_ok_lines (download_loop arg flist rootPath dls count w)
                            (download_loop arg' flist rootPath dls count w').
Proof.
  induction dls as [|dl rest IH]; intros count w w' Hsame; [simpl; auto|].
  rewrite !download_loop_cons. unfold download_entry, bind.
  pose proof (check_local_verbose arg arg' (filepath.Join rootPath (Name dl)) dl w w' Hsame)
    as Hc.
  unfold same_outcome_but_ok_lines in Hc.
  destruct (check_local arg _ dl w) as [r1 w1|e1 w1];
    destruct (check_local arg' _ dl w') as [r2 w2|e2 w2]; try contradiction.
  - destruct Hc as [<- Hc]. destruct r1 as [[|]|]; unfold ret; try (apply IH; exact Hc).
    pose proof (download_verbose flist (filepath.Join rootPath (Name dl)) count dl w1 w2 Hc)
      as Hd.
    unfold same_outcome_but_ok_lines in Hd.
    destruct (download flist _ count dl w1) as [c1 w3|e3 w3];
      destruct (download flist _ count dl w2) as [c2 w4|e4 w4]; try contradiction.
    + destruct Hd as [<- Hd]. apply IH. exact Hd.
    + exact Hd.
  - exact Hc.
Qed.

(** X13. [Verbose] is for the eye only.  Two runs of the download pass
    that differ in nothing but the flag end the same way, with the same
    requests and the same disk; once the [OK] lines are taken out, they
    have printed the same, the number of downloads included. *)
Theorem verbose_only_adds_ok_lines
    (arg arg' : Args) (flist : fileListYaml) (rootPath : string) (w : World) :
  same_outcome_but_ok_lines (HandleDownloadRequests arg flist rootPath w)
                            (HandleDownloadRequests arg' flist rootPath w).
Proof.
  assert (Hrefl : same_but_ok_lines w w) by (repeat split).
  unfold HandleDownloadRequests, bind, println.
  pose proof (download_loop_verbose arg arg' flist rootPath (Downloads flist) 0%nat _ _
                (same_but_ok_lines_event
                   (PrintProcessingDownloads (length (Downloads flist))) _ _ Hrefl)) as H.
  unfold same_outcome_but_ok_lines in *.
  destruct (download_loop arg _ _ _ _ _) as [n1 w1|e1 w1];
    destruct (download_loop arg' _ _ _ _ _) as [n2 w2|e2 w2]; try contradiction.
  - destruct H as [<- H]. split; [reflexivity|]. apply same_but_ok_lines_event. exact H.
  - exact H.
Qed.

Lemma delete_pass_twice_witness :
  let flist := Cases.deleting [Scenario.a_good; Scenario.missing] in
  let w1 := world_of (HandleDeleteRequests flist "/eq"
                        (Scenario.installed Scenario.rw_ "abc")) in
  let w2 := world_of (HandleDeleteRequests flist "/eq" w1) in
  fs w2 = fs w1 /\
  console w2 = console w1 ++ [PrintProcessingDeletes (length (Deletes flist));
                              PrintFilesDeleted 0].
Proof.
  apply (delete_pass_twice (Cases.deleting [Scenario.a_good; Scenario.missing]) "/eq"
           (Scenario.installed Scenario.rw_ "abc")).
  vm_compute. reflexivity.
Defined.

(** X15. An entry that cannot be examined is left aside.  When
    [os.Stat] of its path fails for another reason than "not exist" (the
    path runs through a regular file, or into a directory that may not be
    searched), the path counts as existing, hashing it fails, and the
    loop body prints the error and goes on: nothing is fetched, nothing
    is written, the counter stays. *)
Theorem unreachable_entry_is_skipped
    (arg : Args) (flist : fileListYaml) (rootPath : string) (dl : fileEntry)
    (count : nat) (w : World) (e : error) :
  value (os_Stat (filepath.Join rootPath (Name dl)) w) = Some (Err e) ->
  e ≠ ENOENT ->
  download_entry arg flist rootPath count dl w = Done count (add_event (PrintError e) w).
Proof.
  intros Hstat He.
  set (fullPath := filepath.Join rootPath (Name dl)) in *.
  unfold download_entry, check_local, bind. fold fullPath.
  assert (Hex : fileOrDirExists fullPath w = Done true w).
  { unfold fileOrDirExists, bind, ret.
    destruct (os_Stat_pure fullPath w) as [st E]. rewrite E in Hstat |- *.
    injection Hstat as ->. destruct e; try reflexivity. contradiction. }
  assert (Hmd5 : md5OfFile fullPath w = Done (Err e) w).
  { revert Hstat. unfold os_Stat, md5OfFile, os_Open, bind, ret.
    destruct (locate w fullPath) as [p|e0]; [|intros [= ->]; reflexivity].
    destruct (lookup_node (fs w) p) as [n|e0]; [discriminate|].
    intros [= ->]. reflexivity. }
  rewrite Hex, Hmd5. reflexivity.
Qed.

Lemma unreachable_entry_is_skipped_witness :
  download_entry Scenario.args (Scenario.manifest []) "/eq"
    0 (mkEntry "a.txt/b" Scenario.abc_md5 EmptyString 0)
    (Scenario.installed Scenario.rw_ "abc")
  = Done 0%nat (add_event (PrintError ENOTDIR) (Scenario.installed Scenario.rw_ "abc")).
Proof.
  apply (unreachable_entry_is_skipped Scenario.args (Scenario.manifest []) "/eq"
           (mkEntry "a.txt/b" Scenario.abc_md5 EmptyString 0) 0%nat
           (Scenario.installed Scenario.rw_ "abc") ENOTDIR).
  - vm_compute. reflexivity.
  - discriminate.
Defined.

(** *** Paths *)

Section Paths.

Local Open Scope string_scope.
Local Open Scope list_scope.

Lemma split_nonempty p : filepath.split p ≠ [].
Proof.
  destruct p as [|c p]; simpl; [discriminate|].
  destruct (Ascii.eqb c "/"); [discriminate|].
  destruct (filepath.split p); discriminate.
Qed.

Lemma split_app_slash a b :
  filepath.split (a +:+ "/" +:+ b) = filepath.split a ++ filepath.split b.
Proof.
  induction a as [|c a IH]; [reflexivity|].
  change (String c a +:+ "/" +:+ b) with (String c (a +:+ "/" +:+ b)).
  simpl. rewrite IH. destruct (Ascii.eqb c "/"); [reflexivity|].
  pose proof (split_nonempty a) as Hne.
  destruct (filepath.split a) as [|x xs]; [contradiction|reflexivity].
Qed.

Lemma split_slash_free p : Forall slash_free (filepath.split p).
Proof.
  induction p as [|c p IH]; simpl.
  - repeat constructor.
  - destruct (Ascii.eqb_spec c "/") as [->|Hc].
    + constructor; [constructor|exact IH].
    + destruct (filepath.split p) as [|x xs]; [repeat constructor; exact Hc|].
      inversion IH as [|? ? Hx Hxs]; subst. constructor; [|exact Hxs].
      constructor; assumption.
Qed.

Lemma split_of_slash_free c : slash_free c -> filepath.split c = [c].
Proof.
  induction c as [|a c IH]; intros H; [reflexivity|].
  inversion H as [|? ? Ha Hc]; subst. simpl.
  destruct (Ascii.eqb_spec a "/") as [->|_]; [contradiction|].
  rewrite (IH Hc). reflexivity.
Qed.

Lemma split_unsplit cs :
  cs ≠ [] -> Forall slash_free cs -> filepath.split (filepath.unsplit cs) = cs.
Proof.
  induction cs as [|c cs IH]; intros Hne H; [contradiction|].
  inversion H as [|? ? Hc Hcs]; subst.
  destruct cs as [|c2 rest]; [apply split_of_slash_free; exact Hc|].
  change (filepath.unsplit (c :: c2 :: rest))
    with (c +:+ "/" +:+ filepath.unsplit (c2 :: rest)).
  rewrite split_app_slash, (split_of_slash_free c Hc), IH; [reflexivity|discriminate|exact Hcs].
Qed.

(** What [push] keeps. *)
Lemma push_plain rooted kept c : plain c -> filepath.push rooted kept c = c :: kept.
Proof.
  intros (H1 & H2 & H3). unfold filepath.push.
  destruct (decide (c = EmptyString \/ c = ".")) as [[?|?]|_]; [contradiction..|].
  destruct (decide (c = "..")); [contradiction|reflexivity].
Qed.

Lemma fold_push_plain rooted cs kept :
  Forall plain cs -> fold_left (filepath.push rooted) cs kept = rev cs ++ kept.
Proof.
  revert kept. induction cs as [|c cs IH]; intros kept H; [reflexivity|].
  inversion H as [|? ? Hc Hcs]; subst. simpl.
  rewrite (push_plain _ _ _ Hc), (IH _ Hcs), <- app_assoc. reflexivity.
Qed.

(** Elements without [..] only add to what is kept. *)
Lemma fold_push_no_dotdot cs kept :
  forallb (fun c => negb (String.eqb c "..")) cs = true ->
  exists added, fold_left (filepath.push true) cs kept = added ++ kept.
Proof.
  revert kept. induction cs as [|c cs IH]; intros kept H; [exists []; reflexivity|].
  simpl in H. apply andb_prop in H as [Hc Hcs]. simpl.
  assert (Hstep : filepath.push true kept c = kept \/ filepath.push true kept c = c :: kept).
  { unfold filepath.push. destruct (decide (c = EmptyString \/ c = ".")); [auto|].
    destruct (decide (c = "..")) as [->|_]; [discriminate Hc|auto]. }
  destruct Hstep as [-> | ->].
  - apply IH. exact Hcs.
  - destruct (IH (c :: kept) Hcs) as (added & ->).
    exists (added ++ [c]). rewrite <- app_assoc. reflexivity.
Qed.

(** What is kept in a rooted clean-up is plain and without slashes. *)
Lemma push_rooted_keeps kept c :
  slash_free c -> Forall (fun x => plain x /\ slash_free x) kept ->
  Forall (fun x => plain x /\ slash_free x) (filepath.push true kept c).
Proof.
  intros Hc Hkept. unfold filepath.push.
  destruct (decide (c = EmptyString \/ c = ".")) as [|Hn]; [exact Hkept|].
  destruct (decide (c = "..")) as [->|Hdd].
  - destruct kept as [|top below]; [constructor|].
    inversion Hkept as [|? ? [(_ & _ & Htop) _] Hbelow]; subst.
    destruct (decide (top = "..")); [contradiction|exact Hbelow].
  - constructor; [|exact Hkept]. split; [|exact Hc].
    repeat split; [intros ->; apply Hn; auto|intros ->; apply Hn; auto|exact Hdd].
Qed.

Lemma fold_push_rooted_keeps cs kept :
  Forall slash_free cs -> Forall (fun x => plain x /\ slash_free x) kept ->
  Forall (fun x => plain x /\ slash_free x) (fold_left (filepath.push true) cs kept).
Proof.
  revert kept. induction cs as [|c cs IH]; intros kept Hcs Hkept; [exact Hkept|].
  inversion Hcs; subst. simpl. apply IH; [assumption|].
  apply push_rooted_keeps; assumption.
Qed.

Lemma elements_rooted_keeps p :
  Forall (fun x => plain x /\ slash_free x) (filepath.elements true p).
Proof.
  unfold filepath.elements. apply Forall_rev.
  apply fold_push_rooted_keeps; [apply split_slash_free|constructor].
Qed.

(** Reading back a cleaned absolute path gives its elements. *)
Lemma elements_of_unsplit cs :
  Forall (fun x => plain x /\ slash_free x) cs ->
  filepath.elements true ("/" +:+ filepath.unsplit cs) = cs.
Proof.
  intros H. unfold filepath.elements.
  change (filepath.split ("/" +:+ filepath.unsplit cs))
    with (EmptyString :: filepath.split (filepath.unsplit cs)).
  simpl fold_left. 
  change (filepath.push true [] EmptyString) with (@nil string).
  destruct cs as [|c cs']; [reflexivity|].
  rewrite split_unsplit; [|discriminate|eapply Forall_impl; [exact H|intros ? [? ?]; assumption]].
  rewrite fold_push_plain by (eapply Forall_impl; [exact H|intros ? [? ?]; assumption]).
  rewrite app_nil_r. apply rev_involutive.
Qed.


Lemma push_unrooted_keeps kept c :
  slash_free c -> Forall tidy kept -> Forall tidy (filepath.push false kept c).
Proof.
  intros Hc Hkept. unfold filepath.push.
  destruct (decide (c = EmptyString \/ c = ".")) as [|Hn]; [exact Hkept|].
  assert (Htidy : tidy c).
  { repeat split; [intros ->; apply Hn; auto|intros ->; apply Hn; auto|exact Hc]. }
  destruct (decide (c = "..")) as [->|Hdd].
  - destruct kept as [|top below]; [constructor; [exact Htidy|constructor]|].
    destruct (decide (top = "..")); [constructor; assumption|].
    inversion Hkept; assumption.
  - constructor; assumption.
Qed.

Lemma fold_push_unrooted_keeps cs kept :
  Forall slash_free cs -> Forall tidy kept ->
  Forall tidy (fold_left (filepath.push false) cs kept).
Proof.
  revert kept. induction cs as [|c cs IH]; intros kept Hcs Hkept; [exact Hkept|].
  inversion Hcs; subst. simpl. apply IH; [assumption|].
  apply push_unrooted_keeps; assumption.
Qed.

(** Cleaning a relative path first and resolving it then, or resolving
    it as it is, comes to the same. *)
Lemma push_after_clean kept c below :
  Forall tidy kept ->
  fold_left (filepath.push true) (rev (filepath.push false kept c)) below
  = filepath.push true (fold_left (filepath.push true) (rev kept) below) c.
Proof.
  intros Hkept. unfold filepath.push at 2.
  destruct (decide (c = EmptyString \/ c = ".")) as [Hskip|Hn].
  - unfold filepath.push. destruct (decide (c = EmptyString \/ c = ".")); [reflexivity|contradiction].
  - destruct (decide (c = "..")) as [->|Hdd].
    + destruct kept as [|top rest].
      * reflexivity.
      * destruct (decide (top = "..")) as [->|Htop].
        -- change (rev (".." :: ".." :: rest)) with (rev (".." :: rest) ++ [".."]).
           rewrite fold_left_app. reflexivity.
        -- inversion Hkept as [|? ? (H1 & H2 & _) _]; subst.
           change (rev (top :: rest)) with (rev rest ++ [top]).
           rewrite fold_left_app. simpl.
           rewrite (push_plain true _ top) by (repeat split; assumption).
           unfold filepath.push.
           destruct (decide (".." = EmptyString \/ ".." = ".")) as [[?|?]|_]; [discriminate..|].
           destruct (decide (".." = "..")) as [_|?]; [|contradiction].
           destruct (decide (top = "..")); [contradiction|reflexivity].
    + change (rev (c :: kept)) with (rev kept ++ [c]).
      rewrite fold_left_app. reflexivity.
Qed.

Lemma fold_push_after_clean cs kept below :
  Forall slash_free cs -> Forall tidy kept ->
  fold_left (filepath.push true) (rev (fold_left (filepath.push false) cs kept)) below
  = fold_left (filepath.push true) cs (fold_left (filepath.push true) (rev kept) below).
Proof.
  revert kept. induction cs as [|c cs IH]; intros kept Hcs Hkept; [reflexivity|].
  inversion Hcs; subst. simpl.
  rewrite IH by (try apply push_unrooted_keeps; assumption).
  rewrite push_after_clean by assumption. reflexivity.
Qed.

Lemma unsplit_tidy cs :
  cs ≠ [] -> Forall tidy cs ->
  filepath.unsplit cs ≠ EmptyString /\ filepath.IsAbs (filepath.unsplit cs) = false.
Proof.
  intros Hne H. destruct cs as [|c rest]; [contradiction|].
  inversion H as [|? ? (Hc & _ & Hsf) _]; subst.
  destruct c as [|a c']; [contradiction|].
  inversion Hsf as [|? ? Ha _]; subst.
  assert (Hab : Ascii.eqb a "/" = false) by (apply Ascii.eqb_neq; exact Ha).
  destruct rest; simpl; rewrite Hab; split; (discriminate || reflexivity).
Qed.

(** Where [filepath.Join rootPath name] leads, from where [rootPath]
    leads: for a name without [..], somewhere below. *)
Lemma locate_Join_below w rootPath name r :
  locate w rootPath = Ok r ->
  no_dotdot name = true ->
  exists rest, locate w (filepath.Join rootPath name) = Ok (r ++ rest).
Proof.
  intros Hroot Hname.
  assert (Hne : rootPath ≠ EmptyString).
  { intros ->. discriminate Hroot. }
  set (P := rootPath +:+ "/" +:+ name).
  assert (HP : P ≠ EmptyString /\ filepath.IsAbs P = filepath.IsAbs rootPath).
  { subst P. destruct rootPath; [contradiction|]. split; [discriminate|reflexivity]. }
  destruct HP as [HPne HPabs].
  assert (Hjoin : filepath.Join rootPath name = filepath.Clean P).
  { unfold filepath.Join. destruct (decide (rootPath ≠ EmptyString)); [reflexivity|contradiction]. }
  rewrite Hjoin. unfold filepath.Clean.
  destruct (decide (P = EmptyString)); [contradiction|]. rewrite HPabs.
  unfold locate in Hroot. destruct (decide (rootPath = EmptyString)); [contradiction|].
  destruct (filepath.IsAbs rootPath) eqn:Habs.
  - (* absolute *)
    injection Hroot as <-.
    unfold locate. destruct (decide ("/" +:+ _ = EmptyString)) as [E|_]; [discriminate E|].
    change (filepath.IsAbs ("/" +:+ filepath.unsplit (filepath.elements true P))) with true.
    cbv iota. rewrite elements_of_unsplit by apply elements_rooted_keeps.
    unfold filepath.elements. subst P. rewrite split_app_slash, fold_left_app.
    destruct (fold_push_no_dotdot (filepath.split name)
                (fold_left (filepath.push true) (filepath.split rootPath) []) Hname)
      as (added & ->).
    exists (rev added). rewrite rev_app_distr. reflexivity.
  - (* relative *)
    injection Hroot as <-.
    set (E := filepath.elements false P).
    assert (HE : Forall tidy E).
    { subst E. unfold filepath.elements. apply Forall_rev.
      apply fold_push_unrooted_keeps; [apply split_slash_free|constructor]. }
    set (cleaned := if decide (filepath.unsplit E = EmptyString) then "." else filepath.unsplit E).
    assert (Hsplit : fold_left (filepath.push true) (filepath.split cleaned)
                       (fold_left (filepath.push true) (filepath.split (cwd w)) [])
                     = fold_left (filepath.push true) (filepath.split P)
                         (fold_left (filepath.push true) (filepath.split (cwd w)) [])).
    { pose proof (fold_push_after_clean (filepath.split P) []
                    (fold_left (filepath.push true) (filepath.split (cwd w)) [])
                    (split_slash_free P) (Forall_nil_2 _)) as Hc.
      simpl in Hc. rewrite <- Hc. fold (filepath.elements false P). fold E.
      subst cleaned. destruct E as [|c E'] eqn:HEq.
      - reflexivity.
      - destruct (unsplit_tidy (c :: E') ltac:(discriminate) HE) as [Hn _].
        destruct (decide (filepath.unsplit (c :: E') = EmptyString)); [contradiction|].
        rewrite split_unsplit; [reflexivity|discriminate|].
        eapply Forall_impl; [exact HE|intros ? (_ & _ & ?); assumption]. }
    assert (Hrel : cleaned ≠ EmptyString /\ filepath.IsAbs cleaned = false).
    { subst cleaned.
      destruct (decide (filepath.unsplit E = EmptyString)) as [He|He];
        [split; [discriminate|reflexivity]|].
      split; [exact He|]. destruct E as [|c E']; [contradiction He; reflexivity|].
      apply (unsplit_tidy (c :: E')); [discriminate|exact HE]. }
    destruct Hrel as [Hrne Hrabs].
    unfold locate. destruct (decide (cleaned = EmptyString)); [contradiction|]. rewrite Hrabs.
    unfold filepath.elements. rewrite !split_app_slash, !fold_left_app.
    rewrite Hsplit. subst P. rewrite split_app_slash, fold_left_app.
    destruct (fold_push_no_dotdot (filepath.split name)
                (fold_left (filepath.push true) (filepath.split rootPath)
                   (fold_left (filepath.push true) (filepath.split (cwd w)) [])) Hname)
      as (added & ->).
    exists (rev added). rewrite rev_app_distr. reflexivity.
Qed.

End Paths.

(** *** Staying below the root *)

Lemma locate_same_cwd w w' name : cwd w' = cwd w -> locate w' name = locate w name.
Proof. unfold locate. intros ->. reflexivity. Qed.

Lemma delete_entry_off_target rootPath count del w q :
  locate w (filepath.Join rootPath (Name del)) ≠ Ok q ->
  fs (world_of (delete_entry rootPath count del w)) !! q = fs w !! q.
Proof.
  intros Hq.
  destruct (delete_entry_cases rootPath count del w)
    as [[_ ->]|[(e & _ & ->)|(p & n & _ & Hloc & _ & _ & ->)]]; try reflexivity.
  simpl. apply lookup_delete_ne. intros ->. contradiction.
Qed.

Lemma download_entry_off_target arg flist rootPath count dl w q :
  locate w (filepath.Join rootPath (Name dl)) ≠ Ok q ->
  fs (world_of (download_entry arg flist rootPath count dl w)) !! q = fs w !! q.
Proof.
  intros Hq. unfold download_entry, bind.
  set (fullPath := filepath.Join rootPath (Name dl)) in *.
  destruct (check_local_frame arg fullPath dl w)
    as (r & w0 & -> & Hfs & _ & _ & Hcwd & _ & Htrue & _).
  destruct r as [[|]|]; simpl; try (rewrite Hfs; reflexivity).
  rewrite (Htrue eq_refl).
  destruct (download_cases flist fullPath count dl w)
    as [(e & _ & ->)|[(code & data & _ & _ & ->)
                     |(code & data & err & f' & _ & _ & Hw & ->)]]; try reflexivity.
  match type of Hw with writeFile _ _ ?w2 = _ =>
    destruct (writeFile_frame fullPath data w2) as (r0 & f0 & E0 & _ & Hoff);
    rewrite Hw in E0; injection E0 as <- <-
  end.
  assert (Hkeep : f' !! q = fs w !! q).
  { destruct (locate w fullPath) as [p|e] eqn:Hloc.
    - apply (Hoff p q); [exact Hloc|]. intros ->. contradiction.
    - unfold writeFile, os_Create, bind, ret in Hw.
      replace (locate _ fullPath) with (locate w fullPath) in Hw by reflexivity.
      rewrite Hloc in Hw. injection Hw as _ Hf. simpl in Hf. congruence. }
  destruct err; exact Hkept || exact Hkeep.
Qed.

Lemma delete_entry_setting rootPath count del w :
  same_setting w (world_of (delete_entry rootPath count del w)).
Proof.
  destruct (delete_entry_cases rootPath count del w)
    as [[_ ->]|[(e & _ & ->)|(p & n & _ & _ & _ & _ & ->)]]; repeat split.
Qed.

(** The two loops leave alone whatever does not lie below the root. *)
Lemma delete_loop_below rootPath r dels :
  Forall (fun d => no_dotdot (Name d) = true) dels ->
  forall count w q,
  locate w rootPath = Ok r -> ¬ r `prefix_of` q ->
  let o := delete_loop rootPath dels count w in
  fs (world_of o) !! q = fs w !! q /\ cwd (world_of o) = cwd w.
Proof.
  induction 1 as [|del rest Hdel _ IH]; intros count w q Hroot Hq; [split; reflexivity|].
  cbv zeta. rewrite delete_loop_cons.
  pose proof (delete_entry_setting rootPath count del w) as (Hcwd & _).
  pose proof (delete_entry_off_target rootPath count del w q) as Hoff.
  destruct (locate_Join_below w rootPath (Name del) r Hroot Hdel) as (tail & Hloc).
  rewrite Hloc in Hoff.
  assert (Hkeep : fs (world_of (delete_entry rootPath count del w)) !! q = fs w !! q).
  { apply Hoff. intros [= <-]. apply Hq. exists tail. reflexivity. }
  destruct (delete_entry rootPath count del w) as [c1 w1|e1 w1]; simpl in *.
  - destruct (IH c1 w1 q) as [H1 H2]; [rewrite (locate_same_cwd w w1); assumption|exact Hq|].
    cbv zeta in H1, H2. split; congruence.
  - auto.
Qed.

Lemma download_loop_below arg flist rootPath r dls :
  Forall (fun d => no_dotdot (Name d) = true) dls ->
  forall count w q,
  locate w rootPath = Ok r -> ¬ r `prefix_of` q ->
  let o := download_loop arg flist rootPath dls count w in
  fs (world_of o) !! q = fs w !! q.
Proof.
  induction 1 as [|dl rest Hdl _ IH]; intros count w q Hroot Hq; [reflexivity|].
  cbv zeta. rewrite download_loop_cons.
  destruct (download_entry_cases arg flist rootPath count dl w) as ((Hcwd & _) & _).
  pose proof (download_entry_off_target arg flist rootPath count dl w q) as Hoff.
  destruct (locate_Join_below w rootPath (Name dl) r Hroot Hdl) as (tail & Hloc).
  rewrite Hloc in Hoff.
  assert (Hkeep : fs (world_of (download_entry arg flist rootPath count dl w)) !! q
                  = fs w !! q).
  { apply Hoff. intros [= <-]. apply Hq. exists tail. reflexivity. }
  destruct (download_entry arg flist rootPath count dl w) as [c1 w1|e1 w1]; simpl in *.
  - rewrite <- Hkeep. apply IH; [rewrite (locate_same_cwd w w1); assumption|exact Hq].
  - exact Hkeep.
Qed.

(** X16. The passes stay below the root.  When no [Name] of the
    manifest has an element [..], the delete pass followed by the
    download pass leaves every node that does not lie below [rootPath]
    exactly as it was. *)
Theorem passes_stay_below_the_root
    (arg : Args) (flist : fileListYaml) (rootPath : string) (w : World)
    (r q : list string) :
  locate w rootPath = Ok r ->
  Forall (fun d => no_dotdot (Name d) = true) (Deletes flist ++ Downloads flist) ->
  ¬ r `prefix_of` q ->
  let o := (HandleDeleteRequests flist rootPath >>
            HandleDownloadRequests arg flist rootPath) w in
  fs (world_of o) !! q = fs w !! q.
Proof.
  intros Hroot Hnames Hq. apply Forall_app in Hnames as [Hdels Hdls].
  cbv zeta. unfold HandleDeleteRequests, HandleDownloadRequests, bind, println.
  set (w0 := add_event (PrintProcessingDeletes (length (Deletes flist))) w).
  destruct (delete_loop_below rootPath r (Deletes flist) Hdels 0%nat w0 q Hroot Hq)
    as [Hkeep Hcwd].
  cbv zeta in Hkeep, Hcwd.
  destruct (delete_loop rootPath (Deletes flist) 0 w0) as [n w1|e w1]; simpl in *;
    [|exact Hkeep].
  set (w2 := add_event (PrintProcessingDownloads (length (Downloads flist)))
               (add_event (PrintFilesDeleted n) w1)).
  pose proof (download_loop_below arg flist rootPath r (Downloads flist) Hdls 0%nat w2 q)
    as Hdown.
  cbv zeta in Hdown.
  rewrite <- Hkeep.
  destruct (download_loop arg flist rootPath (Downloads flist) 0 w2) as [m w3|e w3];
    simpl in *; apply Hdown; try exact Hq;
    rewrite (locate_same_cwd w w2) by exact Hcwd; exact Hroot.
Qed.

Lemma passes_stay_below_the_root_witness :
  let flist := Cases.both Scenario.a_good Scenario.sub_bad in
  let w := Scenario.installed Scenario.rw_ "abc" in
  let o := (HandleDeleteRequests flist "/eq" >>
            HandleDownloadRequests Scenario.args flist "/eq") w in
  fs (world_of o) !! ["home"; "u"] = fs w !! ["home"; "u"].
Proof.
  apply (passes_stay_below_the_root Scenario.args
           (Cases.both Scenario.a_good Scenario.sub_bad) "/eq"
           (Scenario.installed Scenario.rw_ "abc") ["eq"] ["home"; "u"]).
  - vm_compute. reflexivity.
  - vm_compute. repeat constructor.
  - intros [tail Htail]. discriminate Htail.
Defined.

(** A name with [..] does leave the root: the delete pass run on [/eq]
    with the entry [../home/u] removes the user's home. *)
Example dotdot_leaves_the_root :
  let flist := Cases.deleting [mkEntry "../home/u" EmptyString EmptyString 0] in
  let w' := world_of (HandleDeleteRequests flist "/eq" Scenario.start) in
  fs Scenario.start !! ["home"; "u"] = Some (Dir Scenario.rwx 0) /\
  fs w' !! ["home"; "u"] = None /\
  reported_deletes w' = [1%nat].
Proof. cbv zeta. repeat split; vm_compute; reflexivity. Qed.

(** *** An installation in order *)

(** X17. An installation in order is left alone.  When the local
    check finds every entry of [Downloads] up to date (its file is there,
    can be read and has the declared digest), the download pass makes no
    request, changes nothing on the disk and reports no download. *)
Theorem installation_in_order_is_left_alone
    (arg : Args) (flist : fileListYaml) (rootPath : string) (w : World) :
  Forall (fun dl => needDownload arg rootPath dl w = Some false) (Downloads flist) ->
  exists w',
    HandleDownloadRequests arg flist rootPath w = Done tt w' /\
    fs w' = fs w /\
    requests w' = requests w /\
    last (console w') = Some (PrintFilesDownloaded 0).
Proof.
  intros Hall.
  assert (Hloop : forall dls w0,
            fs w0 = fs w -> cwd w0 = cwd w ->
            Forall (fun dl => needDownload arg rootPath dl w = Some false) dls ->
            exists w1,
              download_loop arg flist rootPath dls 0 w0 = Done 0%nat w1 /\
              fs w1 = fs w /\ requests w1 = requests w0).
  { induction dls as [|dl rest IH]; intros w0 Hfs Hcwd Hdls.
    - exists w0. auto.
    - inversion Hdls as [|? ? Hdl Hrest]; subst.
      rewrite download_loop_cons. unfold download_entry, bind.
      rewrite <- (needDownload_same_disk arg rootPath dl w w0 Hfs Hcwd) in Hdl.
      unfold needDownload in Hdl.
      destruct (check_local_frame arg (filepath.Join rootPath (Name dl)) dl w0)
        as (r & w1 & E & Hfs1 & Hreq1 & _ & Hcwd1 & _).
      rewrite E in Hdl |- *. simpl in Hdl. subst r. unfold ret.
      destruct (IH w1) as (w2 & -> & Hfs2 & Hreq2); [congruence..|exact Hrest|].
      exists w2. split; [reflexivity|]. split; congruence. }
  unfold HandleDownloadRequests, bind, println.
  destruct (Hloop (Downloads flist)
              (add_event (PrintProcessingDownloads (length (Downloads flist))) w))
    as (w1 & -> & Hfs & Hreq); [reflexivity..|exact Hall|].
  eexists. split; [reflexivity|]. simpl. repeat split; auto. apply last_snoc.
Qed.

Lemma installation_in_order_is_left_alone_witness :
  exists w',
    HandleDownloadRequests Scenario.args (Scenario.manifest [Scenario.a_good]) "/eq"
      (Scenario.installed Scenario.rw_ "abc") = Done tt w' /\
    fs w' = fs (Scenario.installed Scenario.rw_ "abc") /\
    requests w' = requests (Scenario.installed Scenario.rw_ "abc") /\
    last (console w') = Some (PrintFilesDownloaded 0).
Proof.
  apply (installation_in_order_is_left_alone Scenario.args
           (Scenario.manifest [Scenario.a_good]) "/eq"
           (Scenario.installed Scenario.rw_ "abc")).
  repeat constructor.
Defined.

(** *** A cache just written *)

Lemma writeFile_stat name data w f' :
  writeFile name data w = Done None (set_fs f' w) ->
  exists p m, locate w name = Ok p /\ lookup_node f' p = Ok (File m (now w) data).
Proof.
  unfold writeFile, bind, os_Create, ret.
  destruct (locate w name) as [p|e] eqn:Hloc; [|discriminate].
  destruct (traverse (fs w) [] p) as [e|] eqn:Htr; [discriminate|].
  assert (Hwrite : forall m,
            file_Write p data (set_fs (<[p := File m (now w) []]> (fs w)) w)
              = Done None (set_fs f' w) ->
            exists p0 m0, Ok p = Ok p0 /\ lookup_node f' p0 = Ok (File m0 (now w) data)).
  { intros m. unfold file_Write. simpl. rewrite lookup_insert_eq.
    destruct (storage w p data) as [|n e]; [|discriminate].
    rewrite insert_insert_eq.
    intros [= <-]. exists p, m. split; [reflexivity|].
    apply lookup_node_insert. exact Htr. }
  destruct (fs w !! p) as [[m t d|m t]|]; [|discriminate|].
  - destruct (p_write m); [apply Hwrite|discriminate].
  - destruct (parent_writable (fs w) p) as [[]|e]; [apply Hwrite|discriminate].
Qed.

Lemma cache_path_same_home arg w w' :
  home w' = home w -> cache_path arg w' = cache_path arg w.
Proof.
  intros H.
  unfold cache_path, filelistFullPath, getSettingsRoot, os_UserHomeDir, bind, ret.
  rewrite H. destruct (decide (home w = EmptyString)); reflexivity.
Qed.

(** X18. A cache just written is valid.  When the cache was found
    invalid and resolution returned a manifest, resolution run again in
    the world it left finds the cache valid and makes no request. *)
Theorem refreshed_cache_is_valid_at_once
    (yaml : list byte -> result fileListYaml) (arg : Args)
    (clientName expansion : string) (w w' : World) (flist : fileListYaml) :
  value (cache_invalid (cache_path arg w) w) = Some true ->
  DownloadFileList yaml arg clientName expansion w = Done (Ok flist) w' ->
  value (cache_invalid (cache_path arg w') w') = Some false /\
  requests (world_of (DownloadFileList yaml arg clientName expansion w')) = requests w'.
Proof.
  intros Hinv.
  rewrite (DownloadFileList_unfold yaml arg _ _ w true Hinv). cbv zeta.
  unfold refresh, bind, println. rewrite fetchUrl_unfold. simpl.
  destruct (net w (filelistURL arg)) as [|code body [|]]; try discriminate.
  match goal with |- context [getSettingsRoot ?w1] =>
    destruct (getSettingsRoot_pure w1) as [root ->];
    destruct (os_MkdirAll_frame root w1) as (r & f1 & ->)
  end.
  destruct r as [e|]; [discriminate|].
  match goal with |- context [writeFile ?p body ?w2] =>
    destruct (writeFile_cases p body w2) as (r & f2 & Hw & Hcases)
  end.
  rewrite Hw. destruct Hcases as [[-> _]|(e & -> & _)]; [|discriminate].
  apply writeFile_stat in Hw as (p & m & Hloc & Hnode).
  match goal with |- context [os_ReadFile ?n ?w3] =>
    destruct (os_ReadFile_pure n w3) as [rd ->]
  end.
  destruct rd as [data|e]; [|discriminate].
  intros [= _ <-].
  match goal with |- context [cache_invalid ?p ?w3] =>
    assert (Hstat : os_Stat (cache_path arg w) w3
                    = Done (Ok (mkFileInfo (now w) false)) w3)
  end.
  { unfold os_Stat. simpl in Hloc |- *.
    replace (locate _ (cache_path arg w)) with (Ok (A:=list string) p).
    rewrite Hnode. reflexivity. }
  match type of Hstat with os_Stat _ ?w3 = _ =>
    assert (Hpath : cache_path arg w3 = cache_path arg w)
      by (apply cache_path_same_home; reflexivity)
  end.
  rewrite Hpath.
  assert (Hfresh : (now w <? now w - 7 * day) = false).
  { apply Z.ltb_ge. unfold day. lia. }
  split.
  - rewrite (cache_invalid_unfold _ _ _ Hstat). simpl. rewrite Hfresh. reflexivity.
  - rewrite <- Hpath in Hstat.
    rewrite (DownloadFileList_requests yaml arg clientName expansion _ _ Hstat).
    simpl. rewrite Hfresh. reflexivity.
Qed.

Lemma refreshed_cache_is_valid_at_once_witness :
  let w := Scenario.with_cache Scenario.rwx (92 * day) "/home/u/.config/fvpatcher" in
  let w' := world_of (DownloadFileList (Cases.any_yaml []) Scenario.args "rof" "original" w) in
  value (cache_invalid (cache_path Scenario.args w') w') = Some false /\
  requests (world_of (DownloadFileList (Cases.any_yaml []) Scenario.args "rof" "original" w'))
  = requests w'.
Proof.
  apply (refreshed_cache_is_valid_at_once (Cases.any_yaml []) Scenario.args
           "rof" "original"
           (Scenario.with_cache Scenario.rwx (92 * day) "/home/u/.config/fvpatcher")
           _ (mkList "1" [] "https://dl/" [])).
  - vm_compute. reflexivity.
  - vm_compute. reflexivity.
Defined.

(** *** The shape of the file system *)

Lemma is_tree_lookup (f : fsys) q n :
  is_tree f -> f !! q = Some n -> q = [] \/ is_dir_at f (parent q) = true.
Proof. intros Ht Hq. exact (Ht q n Hq). Qed.

Lemma is_tree_delete (f : fsys) q :
  is_tree f ->
  (forall q' n, f !! q' = Some n -> q' ≠ [] -> parent q' ≠ q) ->
  is_tree (delete q f).
Proof.
  intros Ht Hleaf q' n Hq'.
  apply lookup_delete_Some in Hq' as [Hne Hq'].
  destruct (Ht q' n Hq') as [->|Hdir]; [auto|].
  destruct (decide (q' = [])) as [->|Hq0]; [auto|]. right.
  unfold is_dir_at in *. rewrite lookup_delete_ne; [exact Hdir|].
  intros E. apply (Hleaf q' n Hq' Hq0). auto.
Qed.

Lemma is_tree_insert (f : fsys) p n :
  is_tree f ->
  is_dir_at f p = false ->
  p = [] \/ is_dir_at f (parent p) = true ->
  is_tree (<[p := n]> f).
Proof.
  intros Ht Hp Hparent q n' Hq.
  assert (Hkeep : forall q0, is_dir_at f q0 = true -> is_dir_at (<[p := n]> f) q0 = true).
  { intros q0 H0. unfold is_dir_at in *. rewrite lookup_insert_ne; [exact H0|].
    intros <-. rewrite Hp in H0. discriminate. }
  apply lookup_insert_Some in Hq as [[<- _]|[Hne Hq]].
  - destruct Hparent as [->|H]; auto.
  - destruct (Ht q n' Hq) as [->|H]; auto.
Qed.

Lemma has_child_false (f : fsys) q :
  has_child f q = false ->
  forall q' n, f !! q' = Some n -> q' ≠ [] -> parent q' ≠ q.
Proof.
  unfold has_child. intros H q' n Hq' Hne Hpar.
  assert (Ht : existsb (fun q0 => bool_decide (q0 ≠ [] /\ parent q0 = q))
                 (fst <$> map_to_list f) = true).
  { apply existsb_exists. exists q'. split.
    - apply list_elem_of_In, list_elem_of_fmap. exists (q', n).
      split; [reflexivity|]. apply elem_of_map_to_list. exact Hq'.
    - apply bool_decide_eq_true. auto. }
  congruence.
Qed.

Lemma file_has_no_child (f : fsys) q m t d :
  is_tree f -> f !! q = Some (File m t d) ->
  forall q' n, f !! q' = Some n -> q' ≠ [] -> parent q' ≠ q.
Proof.
  intros Ht Hq q' n Hq' Hne <-.
  destruct (Ht q' n Hq') as [|Hdir]; [contradiction|].
  unfold is_dir_at in Hdir. rewrite Hq in Hdir. discriminate.
Qed.

Lemma parent_writable_Ok (f : fsys) p :
  parent_writable f p = Ok tt -> p = [] \/ is_dir_at f (parent p) = true.
Proof.
  unfold parent_writable, is_dir_at. destruct p as [|c p']; [auto|].
  destruct (f !! parent (c :: p')) as [[m t d|m t]|]; try discriminate. auto.
Qed.

(** What [writeFile] leaves on the disk. *)
Lemma writeFile_shape name data w :
  exists r f',
    writeFile name data w = Done r (set_fs f' w) /\
    (f' = fs w \/
     exists p m stored,
       f' = <[p := File m (now w) stored]> (fs w) /\
       is_dir_at (fs w) p = false /\
       ((exists m' t d, fs w !! p = Some (File m' t d)) \/
        parent_writable (fs w) p = Ok tt)).
Proof.
  assert (Hid : w = set_fs (fs w) w) by (destruct w; reflexivity).
  assert (Hfail : forall e : error, exists (r : option error) f',
             Done (Some e) w = Done r (set_fs f' w) /\
             (f' = fs w \/
              exists p m stored,
                f' = <[p := File m (now w) stored]> (fs w) /\
                is_dir_at (fs w) p = false /\
                ((exists m' t d, fs w !! p = Some (File m' t d)) \/
                 parent_writable (fs w) p = Ok tt))).
  { intros e. exists (Some e), (fs w). rewrite <- Hid. auto. }
  unfold writeFile, bind, os_Create, ret.
  destruct (locate w name) as [p|e]; [|apply Hfail].
  destruct (traverse (fs w) [] p) as [e|]; [apply Hfail|].
  unfold is_dir_at.
  destruct (fs w !! p) as [[m t d|m t]|] eqn:Hp.
  - destruct (p_write m); [|apply Hfail].
    unfold file_Write. simpl. rewrite lookup_insert_eq.
    destruct (storage w p data) as [|n e]; rewrite insert_insert_eq;
      eexists _, _; (split; [reflexivity|]); right; exists p, m; eexists;
      rewrite Hp; (split; [reflexivity|]); (split; [reflexivity|]); left; eauto.
  - apply Hfail.
  - destruct (parent_writable (fs w) p) as [[]|e] eqn:Hpw; [|apply Hfail].
    unfold file_Write. simpl. rewrite lookup_insert_eq.
    destruct (storage w p data) as [|n e]; rewrite insert_insert_eq;
      eexists _, _; (split; [reflexivity|]); right; exists p, default_file_mode;
      eexists; rewrite Hp; auto.
Qed.

Lemma writeFile_tree name data w :
  is_tree (fs w) -> is_tree (fs (world_of (writeFile name data w))).
Proof.
  intros Ht.
  destruct (writeFile_shape name data w)
    as (r & f' & -> & [->|(p & m & stored & -> & Hp & Hwhy)]);
    simpl; [exact Ht|].
  apply is_tree_insert; [exact Ht|exact Hp|].
  destruct Hwhy as [(m' & t & d & Hfile)|Hpw].
  - exact (is_tree_lookup _ _ _ Ht Hfile).
  - apply parent_writable_Ok. exact Hpw.
Qed.

Lemma ensure_dir_tree (t : Z) (f : fsys) (p : list string) :
  is_tree f -> is_tree (fst (ensure_dir t f p)).
Proof.
  intros Ht. unfold ensure_dir.
  destruct (f !! p) as [[m t' d|m t']|] eqn:Hp; simpl; try exact Ht.
  destruct (parent_writable f p) as [[]|e] eqn:Hpw.
  - simpl. apply is_tree_insert; [exact Ht| |apply parent_writable_Ok; exact Hpw].
    unfold is_dir_at. rewrite Hp. reflexivity.
  - destruct e; exact Ht.
Qed.

Lemma mkdir_all_tree (t : Z) (todo : list string) :
  forall (f : fsys) (seen : list string), is_tree f -> is_tree (fst (mkdir_all t f seen todo)).
Proof.
  induction todo as [|c rest IH]; intros f seen Ht; simpl;
    pose proof (ensure_dir_tree t f seen Ht) as He;
    destruct (ensure_dir t f seen) as [f' [e|]]; simpl in *; try exact He.
  destruct (searchable f' seen); [apply IH; exact He|exact He].
Qed.

Lemma os_MkdirAll_tree name w :
  is_tree (fs w) -> is_tree (fs (world_of (os_MkdirAll name w))).
Proof.
  intros Ht. unfold os_MkdirAll. destruct (locate w name) as [p|e]; [|exact Ht].
  pose proof (mkdir_all_tree (now w) p (fs w) [] Ht) as H.
  destruct (mkdir_all (now w) (fs w) [] p) as [f' r]. exact H.
Qed.

Lemma delete_loop_tree rootPath dels :
  forall count w,
  is_tree (fs w) -> is_tree (fs (world_of (delete_loop rootPath dels count w))).
Proof.
  induction dels as [|del rest IH]; intros count w Ht; [exact Ht|].
  rewrite delete_loop_cons.
  destruct (delete_entry_cases rootPath count del w)
    as [[_ ->]|[(e & _ & ->)|(q & n & _ & _ & Hn & Hleaf & ->)]].
  - apply IH. exact Ht.
  - apply IH. exact Ht.
  - apply IH. simpl. apply lookup_node_Ok in Hn as [_ Hq].
    apply is_tree_delete; [exact Ht|].
    destruct n as [m t d|m t].
    + apply (file_has_no_child _ _ _ _ _ Ht Hq).
    + apply has_child_false. exact Hleaf.
Qed.

Lemma download_loop_tree arg flist rootPath dls :
  forall count w,
  is_tree (fs w) ->
  is_tree (fs (world_of (download_loop arg flist rootPath dls count w))).
Proof.
  induction dls as [|dl rest IH]; intros count w Ht; [exact Ht|].
  rewrite download_loop_cons. unfold download_entry, bind.
  set (fullPath := filepath.Join rootPath (Name dl)).
  destruct (check_local_frame arg fullPath dl w)
    as (r & w0 & -> & Hfs & _ & _ & _ & _ & Htrue & _).
  destruct r as [[|]|]; unfold ret; try (apply IH; rewrite Hfs; exact Ht).
  rewrite (Htrue eq_refl).
  destruct (download_cases flist fullPath count dl w)
    as [(e & _ & ->)|[(code & data & _ & _ & ->)
                     |(code & data & err & f' & _ & _ & Hw & ->)]].
  - exact Ht.
  - apply IH. exact Ht.
  - apply IH.
    match type of Hw with writeFile _ _ ?w2 = _ =>
      pose proof (writeFile_tree fullPath data w2 Ht) as Hw2; rewrite Hw in Hw2
    end.
    destruct err; exact Hw2.
Qed.

Lemma DownloadFileList_tree yaml arg clientName expansion w :
  is_tree (fs w) ->
  is_tree (fs (world_of (DownloadFileList yaml arg clientName expansion w))).
Proof.
  intros Ht.
  destruct (cache_invalid_pure (cache_path arg w) w) as [b Hb].
  rewrite (DownloadFileList_unfold yaml arg _ _ w b) by (rewrite Hb; reflexivity).
  cbv zeta.
  assert (Hread : forall w1, is_tree (fs w1) ->
            is_tree (fs (world_of
              match os_ReadFile (filelistName arg) w1 with
              | Done (Ok data) w3 => Done (yaml data) w3
              | Done (Err e) w3 => Done (Err e) w3
              | Fatal e w3 => Fatal e w3
              end))).
  { intros w1 H1. destruct (os_ReadFile_pure (filelistName arg) w1) as [rd ->].
    destruct rd; exact H1. }
  destruct b; [|apply Hread; exact Ht].
  unfold refresh, bind, println. rewrite fetchUrl_unfold. simpl.
  destruct (net w (filelistURL arg)) as [|code body [|]]; unfold ret; try exact Ht.
  match goal with |- context [getSettingsRoot ?w1] =>
    destruct (getSettingsRoot_pure w1) as [root ->];
    pose proof (os_MkdirAll_tree root w1 Ht) as Hmk;
    destruct (os_MkdirAll root w1) as [[e|] w2|e w2]; simpl in Hmk; try exact Hmk
  end.
  pose proof (writeFile_tree (cache_path arg w) body w2 Hmk) as Hw.
  destruct (writeFile (cache_path arg w) body w2) as [[e|] w3|e w3]; simpl in Hw;
    try exact Hw.
  apply Hread. exact Hw.
Qed.

(** X19. The program keeps the file system a tree.  If every node
    lies in a directory when [main] starts, then so it is when [main]
    ends or stops: it never removes a directory that still has entries
    ([os.Remove], not a recursive removal), and never puts a file or a
    directory where there is no directory to hold it. *)
Theorem main_keeps_the_tree
    (yaml : list byte -> result fileListYaml) (arg : Args) (w : World) :
  is_tree (fs w) -> is_tree (fs (world_of (main yaml arg w))).
Proof.
  intros Ht. unfold main, bind.
  pose proof (DownloadFileList_tree yaml arg (Client arg) (Expansion arg) w Ht) as H1.
  destruct (DownloadFileList yaml arg (Client arg) (Expansion arg) w) as [[flist|e] w1|e w1];
    simpl in H1; try exact H1.
  unfold HandleDeleteRequests, HandleDownloadRequests, println, bind.
  match goal with |- context [delete_loop ?root ?dels ?c ?w2] =>
    pose proof (delete_loop_tree root dels c w2 H1) as H2;
    destruct (delete_loop root dels c w2) as [n w3|e w3]; simpl in H2; [|exact H2]
  end.
  cbv beta iota.
  match goal with |- context [download_loop arg flist ?root ?dls ?c ?w4] =>
    pose proof (download_loop_tree arg flist root dls c w4 H2) as H3;
    destruct (download_loop arg flist root dls c w4) as [m w5|e w5]; exact H3
  end.
Qed.

Lemma main_keeps_the_tree_witness :
  is_tree (fs (world_of (main (Cases.any_yaml [Scenario.a_bad]) Scenario.args
                           (Scenario.with_cache Scenario.rwx (92 * day)
                              "/home/u/.config/fvpatcher")))).
Proof.
  apply (main_keeps_the_tree (Cases.any_yaml [Scenario.a_bad]) Scenario.args
           (Scenario.with_cache Scenario.rwx (92 * day) "/home/u/.config/fvpatcher")).
  apply (@bool_decide_unpack _ (is_tree_dec _)). vm_compute. exact I.
Defined.

